(** * edscribe-api: pricing rule engine and order lifecycle

    A shallow embedding of [src/models/PricingRule.js], of the order model
    ([orderSchema] and its [pre("save")] hook) and of
    [src/controllers/orderController.js], with the properties of the
    specification stated over it.

    Conventions of the embedding:
    - a JavaScript [Number] is an IEEE 754 binary64 value, [spec_float] with
      precision 53 and maximal exponent 1024, and the arithmetic operators
      are the correctly rounded operations of [SpecFloat];
    - an absent ([undefined]) property is [None];
    - the rule collection is the list of its documents in natural order, and
      [findOne] returns the first document that matches the filter;
    - the order collection is a finite map from [_id] to the other paths of
      the document; a request
      handler is a function from the collection and the request to a
      response and the collection afterwards;
    - [new Date()] and the outcome of a write ([save], [create]) are
      supplied by the environment of the request: the clock, whether a
      [save] resolves, and for each call of [Order.create] the [_id], the
      order number drawn by the hook and the fault of the write, if any.

    Left out of the handlers that write: the authentication and validation
    middleware (a body reaches a handler with its enumerated paths already
    checked, hence the type [Status.t]), the casts, setters and validators
    of the schemas, [populate], the [createdAt]/[updatedAt] stamps, and the
    paths of an order that no handler reads or writes (payment,
    attachments).

    The second part of the development embeds the handlers that read an
    order, the price previews, the listings and the default catalog of the
    pricing controller, the enumerations of the validator and of the order
    schema, the authentication middleware and the error handler, each with
    the properties that its code shows. *)

From Stdlib Require Import ZArith Bool List Ascii String Lia.
From Stdlib Require Import Floats.SpecFloat.
From stdpp Require Import gmap strings list fin_maps sorting pretty.

Local Open Scope string_scope.
Local Open Scope Z_scope.

(** ** JavaScript numbers *)

Module Num.

Definition number : Type := spec_float.

Definition prec : Z := 53.
Definition emax : Z := 1024.

(** The double nearest to the integer [z]. *)
Definition ofZ (z : Z) : number := binary_normalize prec emax z 0 false.

Definition mul (x y : number) : number := SFmul prec emax x y.
Definition sub (x y : number) : number := SFsub prec emax x y.
Definition div (x y : number) : number := SFdiv prec emax x y.
Definition leb (x y : number) : bool := SFleb x y.

(** [ToBoolean] of a number: [+0], [-0] and [NaN] are falsy. *)
Definition truthy (x : number) : bool :=
  match x with
  | S754_zero _ | S754_nan => false
  | _ => true
  end.

Definition isZero (x : number) : bool :=
  match x with
  | S754_zero _ => true
  | _ => false
  end.

(** [a || b] on numbers. *)
Definition orElse (a b : number) : number := if truthy a then a else b.

(** [Math.round]: the integer nearest to [x], ties towards +infinity; an
    integral value, an infinity and [NaN] are returned unchanged, and a
    result that rounds to zero keeps the sign of [x]. *)
Definition round (x : number) : number :=
  match x with
  | S754_finite s m e =>
      if 0 <=? e then x
      else
        let sm := if s then Z.neg m else Z.pos m in
        binary_normalize prec emax
          (Z.shiftr (2 * sm + Z.shiftl 1 (- e)) (1 - e)) 0 s
  | _ => x
  end.

(** [Math.min] and [Math.max] of two arguments. *)
Definition min (x y : number) : number :=
  match SFcompare x y with
  | None => S754_nan
  | Some Lt => x
  | Some Gt => y
  | Some Eq =>
      match x, y with
      | S754_zero sx, S754_zero sy => S754_zero (sx || sy)
      | _, _ => x
      end
  end.

Definition max (x y : number) : number :=
  match SFcompare x y with
  | None => S754_nan
  | Some Lt => y
  | Some Gt => x
  | Some Eq =>
      match x, y with
      | S754_zero sx, S754_zero sy => S754_zero (sx && sy)
      | _, _ => x
      end
  end.

End Num.

Abbreviation number := Num.number.

(** [ToBoolean] of a string, and [a || d] for an optional string. *)
Definition truthyStr (s : string) : bool := negb (String.eqb s "").

Definition strOr (a : option string) (d : string) : string :=
  match a with
  | Some s => if truthyStr s then s else d
  | None => d
  end.

(** ** Order status and the status history *)

Module Status.
Inductive t : Type := pending | in_progress | review | completed | cancelled.

Definition eqb (a b : t) : bool :=
  match a, b with
  | pending, pending | in_progress, in_progress | review, review
  | completed, completed | cancelled, cancelled => true
  | _, _ => false
  end.

(** [["completed", "cancelled"].includes(s)] *)
Definition terminal (s : t) : bool :=
  existsb (eqb s) [completed; cancelled].
End Status.

Module Entry.
Record t : Type := mk {
  status : Status.t;
  timestamp : Z;
  note : string
}.
End Entry.

(** ** The request payloads *)

(** The object [orderData] of [createOrder] and of the price preview: the
    request body, to which [createOrder] adds [student], [basePrice],
    [totalPrice] and [urgency]. The body is spread without a filter, so it
    may carry any path of the order schema. *)
Module OrderData.
Record t : Type := mk {
  student : option string;
  educationLevel : option string;
  taskType : option string;
  subject : option string;
  title : option string;
  description : option string;
  additionalInstructions : option string;
  deadline : Z;
  urgency : option string;
  complexityLevel : option string;
  citationStyle : option string;
  pageCount : option number;
  basePrice : option number;
  totalPrice : option number;
  status : option Status.t;
  statusHistory : list Entry.t;
  progress : option number;
  adminNotes : option string;
  rating : option number;
  review : option string;
  reviewedAt : option Z
}.

Definition set_student (v : string) (d : t) : t :=
  mk (Some v) (educationLevel d) (taskType d) (subject d) (title d)
     (description d) (additionalInstructions d) (deadline d) (urgency d)
     (complexityLevel d) (citationStyle d) (pageCount d) (basePrice d)
     (totalPrice d) (status d) (statusHistory d) (progress d) (adminNotes d)
     (rating d) (review d) (reviewedAt d).

Definition set_basePrice (v : number) (d : t) : t :=
  mk (student d) (educationLevel d) (taskType d) (subject d) (title d)
     (description d) (additionalInstructions d) (deadline d) (urgency d)
     (complexityLevel d) (citationStyle d) (pageCount d) (Some v)
     (totalPrice d) (status d) (statusHistory d) (progress d) (adminNotes d)
     (rating d) (review d) (reviewedAt d).

Definition set_totalPrice (v : number) (d : t) : t :=
  mk (student d) (educationLevel d) (taskType d) (subject d) (title d)
     (description d) (additionalInstructions d) (deadline d) (urgency d)
     (complexityLevel d) (citationStyle d) (pageCount d) (basePrice d)
     (Some v) (status d) (statusHistory d) (progress d) (adminNotes d)
     (rating d) (review d) (reviewedAt d).

Definition set_urgency (v : string) (d : t) : t :=
  mk (student d) (educationLevel d) (taskType d) (subject d) (title d)
     (description d) (additionalInstructions d) (deadline d) (Some v)
     (complexityLevel d) (citationStyle d) (pageCount d) (basePrice d)
     (totalPrice d) (status d) (statusHistory d) (progress d) (adminNotes d)
     (rating d) (review d) (reviewedAt d).
End OrderData.

(** The body of an update, cancel or review request. *)
Module Body.
Record t : Type := mk {
  status : option Status.t;
  adminNotes : option string;
  progress : option number;
  statusNote : option string;
  additionalInstructions : option string;
  reason : option string;
  rating : option number;
  review : option string
}.
End Body.

Module User.
Record t : Type := mk {
  _id : string;
  role : string
}.
End User.

(** ** The pricing rules ([src/models/PricingRule.js]) *)

Module PricingRule.

Record t : Type := mk {
  name : string;
  category : string;
  multiplier : number;
  basePrice : number;
  appliesTo : string;
  displayName : string;
  displayOrder : number;
  isActive : bool;
  priority : number
}.

(** [findOne(filter)]: the first document of the collection matching the
    filter. *)
Definition findOne (filter : t -> bool) (rules : list t) : option t :=
  List.find filter rules.

(** The filter [{ name: n, isActive: true }]. *)
Definition byName (n : string) (r : t) : bool :=
  String.eqb (name r) n && isActive r.

(** The filter [{ category: c, appliesTo: a, isActive: true }]. *)
Definition byCategory (c a : string) (r : t) : bool :=
  String.eqb (category r) c && String.eqb (appliesTo r) a && isActive r.

(** A category lookup whose value may be [undefined]: the required string
    path [appliesTo] of a rule never matches it. *)
Definition findRule (rules : list t) (c : string) (a : option string)
  : option t :=
  match a with
  | Some v => findOne (byCategory c v) rules
  | None => None
  end.

Definition defaultBasePricePerPage : number := Num.ofZ 15.

(** Lines 108-117 of [calculatePrice]. *)
Definition basePricePerPage (rules : list t) : number :=
  match findOne (byName "base_price_per_page") rules with
  | Some baseRule => Num.orElse (basePrice baseRule) defaultBasePricePerPage
  | None => defaultBasePricePerPage
  end.

(** [if (rule) { totalPrice *= rule.multiplier; }] *)
Definition applyRule (rule : option t) (totalPrice : number) : number :=
  match rule with
  | Some r => Num.mul totalPrice (multiplier r)
  | None => totalPrice
  end.

(** The citation lookup is made only for a truthy style other than
    "none". *)
Definition citationRule (rules : list t) (style : option string) : option t :=
  match style with
  | Some s =>
      if truthyStr s && negb (String.eqb s "none")
      then findOne (byCategory "citation_style" s) rules
      else None
  | None => None
  end.

(** [orderData.pageCount || 1] *)
Definition pageCountOf (orderData : OrderData.t) : number :=
  match OrderData.pageCount orderData with
  | Some n => Num.orElse n (Num.ofZ 1)
  | None => Num.ofZ 1
  end.

(** [Math.round(totalPrice * 100) / 100] *)
Definition roundCents (totalPrice : number) : number :=
  Num.div (Num.round (Num.mul totalPrice (Num.ofZ 100))) (Num.ofZ 100).

Definition calculatePrice (rules : list t) (orderData : OrderData.t) : number :=
  let pageCount := pageCountOf orderData in
  let totalPrice := Num.mul (basePricePerPage rules) pageCount in
  let educationRule :=
    findRule rules "education_level" (OrderData.educationLevel orderData) in
  let totalPrice := applyRule educationRule totalPrice in
  let taskRule := findRule rules "task_type" (OrderData.taskType orderData) in
  let totalPrice := applyRule taskRule totalPrice in
  let urgencyRule :=
    findOne
      (byCategory "urgency" (strOr (OrderData.urgency orderData) "standard"))
      rules in
  let totalPrice := applyRule urgencyRule totalPrice in
  let complexityRule :=
    findOne
      (byCategory "complexity"
         (strOr (OrderData.complexityLevel orderData) "standard"))
      rules in
  let totalPrice := applyRule complexityRule totalPrice in
  let totalPrice :=
    applyRule (citationRule rules (OrderData.citationStyle orderData))
      totalPrice in
  roundCents totalPrice.

End PricingRule.

(** ** The order model ([orderSchema]) *)

(** A rejected write: the [code] and the keys of [keyPattern] of the error. *)
Module MongoError.
Record t : Type := mk {
  code : Z;
  keyPattern : list string
}.

Definition duplicateKey (path : string) : t := mk 11000 [path].
End MongoError.

Module Order.

Record t : Type := mk {
  student : string;
  orderNumber : string;
  educationLevel : option string;
  taskType : option string;
  subject : option string;
  title : option string;
  description : option string;
  additionalInstructions : string;
  deadline : Z;
  urgency : string;
  complexityLevel : string;
  citationStyle : string;
  pageCount : number;
  basePrice : option number;
  totalPrice : option number;
  status : Status.t;
  statusHistory : list Entry.t;
  progress : number;
  adminNotes : string;
  rating : option number;
  review : option string;
  reviewedAt : option Z
}.

Definition set_orderNumber (v : string) (o : t) : t :=
  mk (student o) v (educationLevel o) (taskType o) (subject o)
     (title o) (description o) (additionalInstructions o) (deadline o)
     (urgency o) (complexityLevel o) (citationStyle o) (pageCount o)
     (basePrice o) (totalPrice o) (status o) (statusHistory o) (progress o)
     (adminNotes o) (rating o) (review o) (reviewedAt o).

Definition set_additionalInstructions (v : string) (o : t) : t :=
  mk (student o) (orderNumber o) (educationLevel o) (taskType o)
     (subject o) (title o) (description o) v (deadline o)
     (urgency o) (complexityLevel o) (citationStyle o) (pageCount o)
     (basePrice o) (totalPrice o) (status o) (statusHistory o) (progress o)
     (adminNotes o) (rating o) (review o) (reviewedAt o).

Definition set_status (v : Status.t) (o : t) : t :=
  mk (student o) (orderNumber o) (educationLevel o) (taskType o)
     (subject o) (title o) (description o) (additionalInstructions o)
     (deadline o) (urgency o) (complexityLevel o) (citationStyle o)
     (pageCount o) (basePrice o) (totalPrice o) v (statusHistory o)
     (progress o) (adminNotes o) (rating o) (review o) (reviewedAt o).

(** [this.statusHistory.push(entry)] *)
Definition push_statusHistory (entry : Entry.t) (o : t) : t :=
  mk (student o) (orderNumber o) (educationLevel o) (taskType o)
     (subject o) (title o) (description o) (additionalInstructions o)
     (deadline o) (urgency o) (complexityLevel o) (citationStyle o)
     (pageCount o) (basePrice o) (totalPrice o) (status o)
     (statusHistory o ++ [entry])
     (progress o) (adminNotes o) (rating o) (review o) (reviewedAt o).

Definition set_progress (v : number) (o : t) : t :=
  mk (student o) (orderNumber o) (educationLevel o) (taskType o)
     (subject o) (title o) (description o) (additionalInstructions o)
     (deadline o) (urgency o) (complexityLevel o) (citationStyle o)
     (pageCount o) (basePrice o) (totalPrice o) (status o) (statusHistory o)
     v (adminNotes o) (rating o) (review o) (reviewedAt o).

Definition set_adminNotes (v : string) (o : t) : t :=
  mk (student o) (orderNumber o) (educationLevel o) (taskType o)
     (subject o) (title o) (description o) (additionalInstructions o)
     (deadline o) (urgency o) (complexityLevel o) (citationStyle o)
     (pageCount o) (basePrice o) (totalPrice o) (status o) (statusHistory o)
     (progress o) v (rating o) (review o) (reviewedAt o).

Definition set_rating (v : option number) (o : t) : t :=
  mk (student o) (orderNumber o) (educationLevel o) (taskType o)
     (subject o) (title o) (description o) (additionalInstructions o)
     (deadline o) (urgency o) (complexityLevel o) (citationStyle o)
     (pageCount o) (basePrice o) (totalPrice o) (status o) (statusHistory o)
     (progress o) (adminNotes o) v (review o) (reviewedAt o).

Definition set_review (v : option string) (o : t) : t :=
  mk (student o) (orderNumber o) (educationLevel o) (taskType o)
     (subject o) (title o) (description o) (additionalInstructions o)
     (deadline o) (urgency o) (complexityLevel o) (citationStyle o)
     (pageCount o) (basePrice o) (totalPrice o) (status o) (statusHistory o)
     (progress o) (adminNotes o) (rating o) v (reviewedAt o).

Definition set_reviewedAt (v : option Z) (o : t) : t :=
  mk (student o) (orderNumber o) (educationLevel o) (taskType o)
     (subject o) (title o) (description o) (additionalInstructions o)
     (deadline o) (urgency o) (complexityLevel o) (citationStyle o)
     (pageCount o) (basePrice o) (totalPrice o) (status o) (statusHistory o)
     (progress o) (adminNotes o) (rating o) (review o) v.

(** What one call of [Order.create] is given by its environment: the
    [_id] of the new document, the order number drawn by the hook, and a
    fault of the write that is not a duplicate key, if any. *)
Record Draw : Type := mkDraw {
  newId : string;
  generated : string;
  fault : option MongoError.t
}.

(** [new Order(orderData)]: the paths of [orderData] with the defaults of
    the schema for the absent ones. *)
Definition construct (d : OrderData.t) : t :=
  mk (default "" (OrderData.student d))
     ""
     (OrderData.educationLevel d) (OrderData.taskType d)
     (OrderData.subject d) (OrderData.title d) (OrderData.description d)
     (default "" (OrderData.additionalInstructions d))
     (OrderData.deadline d)
     (default "standard" (OrderData.urgency d))
     (default "standard" (OrderData.complexityLevel d))
     (default "none" (OrderData.citationStyle d))
     (default (Num.ofZ 1) (OrderData.pageCount d))
     (OrderData.basePrice d) (OrderData.totalPrice d)
     (default Status.pending (OrderData.status d))
     (OrderData.statusHistory d)
     (default (Num.ofZ 0) (OrderData.progress d))
     (default "" (OrderData.adminNotes d))
     (OrderData.rating d)
     (Some (default "" (OrderData.review d)))
     (OrderData.reviewedAt d).

(** [orderSchema.pre("save")] on a new document: the order number is
    assigned and the initial status is pushed on the history. *)
Definition preSave (now : Z) (generated : string) (o : t) : t :=
  let o := set_orderNumber generated o in
  push_statusHistory (Entry.mk (status o) now "Order created") o.

(** The unique index on [orderNumber]. *)
Definition orderNumberTaken (n : string) (orders : gmap string t) : bool :=
  existsb (fun kv => String.eqb (orderNumber (snd kv)) n) (map_to_list orders).

(** [Order.create(orderData)]: either the document and the collection with
    it inserted, or the error the write is rejected with. *)
Definition create (now : Z) (draw : Draw) (orders : gmap string t)
    (orderData : OrderData.t) : MongoError.t + (t * gmap string t) :=
  let doc := preSave now (generated draw) (construct orderData) in
  match fault draw with
  | Some err => inl err
  | None =>
      if orderNumberTaken (orderNumber doc) orders
      then inl (MongoError.duplicateKey "orderNumber")
      else
        match orders !! newId draw with
        | Some _ => inl (MongoError.duplicateKey "_id")
        | None => inr (doc, <[newId draw := doc]> orders)
        end
  end.

End Order.

(** ** The order controller ([src/controllers/orderController.js]) *)

Module Response.
Record t : Type := mk {
  statusCode : Z;
  success : bool;
  error : option string;
  errors : list (string * string);
  data : option Order.t
}.

(** [res.status(code).json({ success: false, error: msg })] *)
Definition fail (code : Z) (msg : string) : t :=
  mk code false (Some msg) [] None.

(** [res.status(code).json({ success: true, data: order })] *)
Definition send (code : Z) (order : Order.t) : t :=
  mk code true None [] (Some order).
End Response.

(** What a request reads from outside: the clock, whether [order.save()]
    resolves, and the draws of the successive calls of [Order.create]. *)
Record Env : Type := mkEnv {
  now : Z;
  saveOk : bool;
  draws : nat -> Order.Draw
}.

(** [await order.save()] inside the [try] of a handler: the document
    replaces the stored one, or the write is rejected, nothing is stored and
    the [catch] answers 500 with the handler's message. *)
Definition save (env : Env) (orders : gmap string Order.t) (id : string)
    (order : Order.t) (msg : string) : Response.t * gmap string Order.t :=
  if saveOk env
  then (Response.send 200 order, <[id := order]> orders)
  else (Response.fail 500 msg, orders).

(** [err.code === 11000 && err.keyPattern?.orderNumber] *)
Definition isOrderNumberCollision (err : MongoError.t) : bool :=
  (MongoError.code err =? 11000)
  && existsb (String.eqb "orderNumber") (MongoError.keyPattern err).

(** How the creation loop ends, with the final value of [attempts]. *)
Inductive CreateLoop : Type :=
  | Created (order : Order.t) (orders : gmap string Order.t) (attempts : nat)
  | NoOrder (attempts : nat)
  | Thrown (err : MongoError.t) (attempts : nat).

(** [while (!order && attempts < 3)]: [remaining] is [3 - attempts]. Every
    iteration calls [Order.create] once; the call made when [attempts = k]
    is the [k]-th since only a collision lets the loop go on. *)
Fixpoint createLoop (remaining attempts : nat) (env : Env)
    (orders : gmap string Order.t) (orderData : OrderData.t) : CreateLoop :=
  match remaining with
  | O => NoOrder attempts
  | S remaining' =>
      match Order.create (now env) (draws env attempts) orders orderData with
      | inr (order, orders') => Created order orders' attempts
      | inl err =>
          if isOrderNumberCollision err
          then createLoop remaining' (S attempts) env orders orderData
          else Thrown err attempts
      end
  end.

Definition msPerHour : number :=
  Num.mul (Num.mul (Num.ofZ 1000) (Num.ofZ 60)) (Num.ofZ 60).

(** [(deadline - now) / (1000 * 60 * 60)] *)
Definition hoursUntilDeadline (deadline now : Z) : number :=
  Num.div (Num.sub (Num.ofZ deadline) (Num.ofZ now)) msPerHour.

(** Lines 29-35 of [createOrder]. *)
Definition deriveUrgency (deadline now : Z) : string :=
  let h := hoursUntilDeadline deadline now in
  if Num.leb h (Num.ofZ 24) then "urgent"
  else if Num.leb h (Num.ofZ 72) then "rush"
  else "standard".

(** [orderData] as it is when [Order.create] is called. *)
Definition prepareOrderData (env : Env) (rules : list PricingRule.t)
    (user : User.t) (body : OrderData.t) : OrderData.t :=
  let orderData := OrderData.set_student (User._id user) body in
  let totalPrice := PricingRule.calculatePrice rules orderData in
  let orderData :=
    OrderData.set_basePrice (Num.div totalPrice (Num.ofZ 1)) orderData in
  let orderData := OrderData.set_totalPrice totalPrice orderData in
  OrderData.set_urgency (deriveUrgency (OrderData.deadline orderData) (now env))
    orderData.

Definition createOrder (env : Env) (rules : list PricingRule.t)
    (orders : gmap string Order.t) (user : User.t) (body : OrderData.t)
  : Response.t * gmap string Order.t :=
  let orderData := prepareOrderData env rules user body in
  match createLoop 3 0 env orders orderData with
  | Created order orders' _ => (Response.send 201 order, orders')
  | NoOrder _ => (Response.fail 500 "Server error creating order", orders)
  | Thrown _ _ => (Response.fail 500 "Server error creating order", orders)
  end.

Definition isOwner (order : Order.t) (user : User.t) : bool :=
  String.eqb (Order.student order) (User._id user).

Definition isAdmin (user : User.t) : bool := String.eqb (User.role user) "admin".

(** [req.body.status && req.body.status !== "cancelled"] *)
Definition statusOtherThanCancelled (body : Body.t) : bool :=
  match Body.status body with
  | Some s => negb (Status.eqb s Status.cancelled)
  | None => false
  end.

(** [req.body.status === "cancelled"] *)
Definition asksCancel (body : Body.t) : bool :=
  match Body.status body with
  | Some s => Status.eqb s Status.cancelled
  | None => false
  end.

Definition cancelWith (now : Z) (note : string) (order : Order.t) : Order.t :=
  Order.push_statusHistory (Entry.mk Status.cancelled now note)
    (Order.set_status Status.cancelled order).

(** The owner's branch of [updateOrder], after the checks. *)
Definition ownerChanges (env : Env) (body : Body.t) (order : Order.t) : Order.t :=
  let order :=
    if asksCancel body then cancelWith (now env) "Cancelled by student" order
    else order in
  match Body.additionalInstructions body with
  | Some s => if truthyStr s then Order.set_additionalInstructions s order else order
  | None => order
  end.

(** The administrator's branch of [updateOrder]. *)
Definition adminChanges (env : Env) (body : Body.t) (order : Order.t) : Order.t :=
  let order :=
    match Body.status body with
    | Some status =>
        if negb (Status.eqb status (Order.status order))
        then
          Order.push_statusHistory
            (Entry.mk status (now env)
               (strOr (Body.statusNote body) "Status updated by admin"))
            (Order.set_status status order)
        else order
    | None => order
    end in
  let order :=
    match Body.adminNotes body with
    | Some adminNotes => Order.set_adminNotes adminNotes order
    | None => order
    end in
  match Body.progress body with
  | Some progress =>
      Order.set_progress
        (Num.max (Num.ofZ 0) (Num.min (Num.ofZ 100) progress)) order
  | None => order
  end.

Definition updateOrder (env : Env) (orders : gmap string Order.t)
    (user : User.t) (id : string) (body : Body.t)
  : Response.t * gmap string Order.t :=
  match orders !! id with
  | None => (Response.fail 404 "Order not found", orders)
  | Some order =>
      if negb (isOwner order user) && negb (isAdmin user)
      then (Response.fail 403 "Not authorized to update this order", orders)
      else if isOwner order user && negb (isAdmin user)
      then
        if statusOtherThanCancelled body
        then (Response.fail 403 "Students can only cancel orders", orders)
        else if asksCancel body && Status.terminal (Order.status order)
        then (Response.fail 400 "Cannot cancel this order", orders)
        else save env orders id (ownerChanges env body order)
               "Server error updating order"
      else save env orders id (adminChanges env body order)
             "Server error updating order"
  end.

Definition cancelOrder (env : Env) (orders : gmap string Order.t)
    (user : User.t) (id : string) (body : Body.t)
  : Response.t * gmap string Order.t :=
  match orders !! id with
  | None => (Response.fail 404 "Order not found", orders)
  | Some order =>
      if negb (isOwner order user)
      then (Response.fail 403 "Not authorized to cancel this order", orders)
      else if Status.terminal (Order.status order)
      then (Response.fail 400 "This order cannot be cancelled", orders)
      else
        save env orders id
          (cancelWith (now env) (strOr (Body.reason body) "Cancelled by student")
             order)
          "Server error cancelling order"
  end.

Definition reviewOrder (env : Env) (orders : gmap string Order.t)
    (user : User.t) (id : string) (body : Body.t)
  : Response.t * gmap string Order.t :=
  match orders !! id with
  | None => (Response.fail 404 "Order not found", orders)
  | Some order =>
      if negb (isOwner order user)
      then (Response.fail 403 "Not authorized to review this order", orders)
      else if negb (Status.eqb (Order.status order) Status.completed)
      then (Response.fail 400 "Can only review completed orders", orders)
      else
        match Order.rating order with
        | Some _ =>
            (Response.fail 400 "Order has already been reviewed", orders)
        | None =>
            save env orders id
              (Order.set_reviewedAt (Some (now env))
                 (Order.set_review (Body.review body)
                    (Order.set_rating (Body.rating body) order)))
              "Server error submitting review"
        end
  end.


(** * The vocabulary of the properties *)

(** The doubles proper: the mantissa of a finite one is normalised. *)
Definition canonical (x : number) : Prop :=
  valid_binary Num.prec Num.emax x = true.

(** The rule [r] has the category, the value and the multiplier [spec]. *)
Definition describes (r : PricingRule.t) (spec : string * string * number)
  : Prop :=
  PricingRule.category r = spec.1.1
  /\ PricingRule.appliesTo r = spec.1.2
  /\ PricingRule.multiplier r = spec.2.

(** A catalog described by its active rules: [specs] lists the
    [(category, appliesTo, multiplier)] of the active rules. Every active
    rule is one of them, every one of them is an active rule, and no active
    rule is the base-rate rule. Inactive rules are arbitrary. *)
Definition activeRulesAre (specs : list (string * string * number))
    (rules : list PricingRule.t) : Prop :=
  (forall r, In r rules -> PricingRule.isActive r = true ->
     PricingRule.name r <> "base_price_per_page"
     /\ exists spec, In spec specs /\ describes r spec)
  /\ (forall spec, In spec specs ->
        exists r,
          In r rules /\ PricingRule.isActive r = true /\ describes r spec).

(** The rules of the 90.00 scenario, and the scenario without the rule for
    the task type "essay". *)
Definition rules90 : list (string * string * number) :=
  [ ("education_level", "phd", Num.ofZ 3);
    ("task_type", "essay", Num.ofZ 1);
    ("urgency", "standard", Num.ofZ 1);
    ("complexity", "standard", Num.ofZ 1) ].

Definition rules90_without_essay : list (string * string * number) :=
  [ ("education_level", "phd", Num.ofZ 3);
    ("urgency", "standard", Num.ofZ 1);
    ("complexity", "standard", Num.ofZ 1) ].

(** The order attributes of the scenario. *)
Definition phdEssayTwoPages (d : OrderData.t) : Prop :=
  OrderData.educationLevel d = Some "phd"
  /\ OrderData.taskType d = Some "essay"
  /\ OrderData.urgency d = Some "standard"
  /\ OrderData.complexityLevel d = Some "standard"
  /\ (OrderData.citationStyle d = None
      \/ OrderData.citationStyle d = Some "none")
  /\ OrderData.pageCount d = Some (Num.ofZ 2).

(** The five category lookups of [calculatePrice], in the order in which
    they are made; the citation lookup counts as finding nothing when it is
    not made. *)
Definition lookups (rules : list PricingRule.t) (d : OrderData.t)
  : list (option PricingRule.t) :=
  [ PricingRule.findRule rules "education_level" (OrderData.educationLevel d);
    PricingRule.findRule rules "task_type" (OrderData.taskType d);
    PricingRule.findOne
      (PricingRule.byCategory "urgency" (strOr (OrderData.urgency d) "standard"))
      rules;
    PricingRule.findOne
      (PricingRule.byCategory "complexity"
         (strOr (OrderData.complexityLevel d) "standard"))
      rules;
    PricingRule.citationRule rules (OrderData.citationStyle d) ].

(** The multipliers of the rules that were found. *)
Definition foundMultipliers (rules : list PricingRule.t) (d : OrderData.t)
  : list number :=
  map PricingRule.multiplier (omap id (lookups rules d)).

(** The factor of a step: the multiplier of the rule found, 1.0 when the
    lookup finds nothing. *)
Definition factor (rule : option PricingRule.t) : number :=
  match rule with
  | Some r => PricingRule.multiplier r
  | None => Num.ofZ 1
  end.

(** The numbers of the catalog and of the order are doubles proper. *)
Definition canonicalInputs (rules : list PricingRule.t) (d : OrderData.t)
  : Prop :=
  (forall r, In r rules ->
     canonical (PricingRule.multiplier r)
     /\ canonical (PricingRule.basePrice r))
  /\ (forall n, OrderData.pageCount d = Some n -> canonical n).

(** The [k]-th call of [Order.create] of a request. *)
Definition attempt (env : Env) (orders : gmap string Order.t)
    (orderData : OrderData.t) (k : nat)
  : MongoError.t + (Order.t * gmap string Order.t) :=
  Order.create (now env) (draws env k) orders orderData.

(** The [k]-th call is rejected for a duplicate order number. *)
Definition collides (env : Env) (orders : gmap string Order.t)
    (orderData : OrderData.t) (k : nat) : Prop :=
  exists err,
    attempt env orders orderData k = inl err
    /\ isOrderNumberCollision err = true.



(** The review written by an accepted [reviewOrder]. *)
Definition reviewed (env : Env) (body : Body.t) (order : Order.t) : Order.t :=
  Order.set_reviewedAt (Some (now env))
    (Order.set_review (Body.review body)
       (Order.set_rating (Body.rating body) order)).

(** The history is not empty and its last entry has the current status. *)
Definition historyOk (o : Order.t) : Prop :=
  exists e, last (Order.statusHistory o) = Some e
            /\ Entry.status e = Order.status o.

(** The collections that requests can build from the empty one. *)
Inductive reachable : gmap string Order.t -> Prop :=
  | reach_empty : reachable ∅
  | reach_create env rules orders user body :
      reachable orders ->
      reachable (createOrder env rules orders user body).2
  | reach_update env orders user id body :
      reachable orders ->
      reachable (updateOrder env orders user id body).2
  | reach_cancel env orders user id body :
      reachable orders ->
      reachable (cancelOrder env orders user id body).2
  | reach_review env orders user id body :
      reachable orders ->
      reachable (reviewOrder env orders user id body).2.

(** * A concrete catalog and a concrete collection *)

(** An order for a text on logic, and a rule with an integral multiplier. *)
Definition anOrderData
    (educationLevel taskType urgency citationStyle : option string)
    (pageCount : option number) (deadline : Z) : OrderData.t :=
  OrderData.mk None educationLevel taskType (Some "Logic") (Some "On proofs")
    (Some "An essay") None deadline urgency (Some "standard") citationStyle
    pageCount None None None [] None None None None None.

Definition aRule (name category appliesTo : string) (multiplier : Z)
    (isActive : bool) : PricingRule.t :=
  PricingRule.mk name category (Num.ofZ multiplier) (Num.ofZ 0) appliesTo
    appliesTo (Num.ofZ 0) isActive (Num.ofZ 0).

Definition catalog90 : list PricingRule.t :=
  [ aRule "old_phd_level" "education_level" "phd" 5 false;
    aRule "phd_level" "education_level" "phd" 3 true;
    aRule "essay_task" "task_type" "essay" 1 true;
    aRule "standard_urgency" "urgency" "standard" 1 true;
    aRule "standard_complexity" "complexity" "standard" 1 true ].

Definition catalog90_without_essay : list PricingRule.t :=
  [ aRule "phd_level" "education_level" "phd" 3 true;
    aRule "essay_task" "task_type" "essay" 4 false;
    aRule "standard_urgency" "urgency" "standard" 1 true;
    aRule "standard_complexity" "complexity" "standard" 1 true ].

Definition phdEssay : OrderData.t :=
  anOrderData (Some "phd") (Some "essay") (Some "standard") None
    (Some (Num.ofZ 2)) 0.

Definition zeroBaseRule : PricingRule.t :=
  PricingRule.mk "base_price_per_page" "page_count" (Num.ofZ 1) (Num.ofZ 0)
    "base" "Base price per page" (Num.ofZ 0) true (Num.ofZ 0).

Definition now0 : Z := 1793622000000.
Definition hour : Z := 3600000.

Definition student1 : User.t := User.mk "64f0a1" "student".
Definition admin1 : User.t := User.mk "64f0c3" "admin".

Definition essayBody (urgency : option string) (deadline : Z) : OrderData.t :=
  anOrderData (Some "phd") (Some "essay") urgency None (Some (Num.ofZ 1))
    deadline.

(** Every draw yields the same order number. *)
Definition sameNumber (id : string) : nat -> Order.Draw :=
  fun _ => Order.mkDraw id "ORD-2611-000042" None.



Definition env0 : Env := mkEnv now0 true (sameNumber "65a001").

(** The collection after a first order has been created. *)
Definition orders1 : gmap string Order.t :=
  (createOrder env0 [] ∅ student1 (essayBody None (now0 + 100 * hour))).2.

Definition order1 : Order.t :=
  Order.mk "64f0a1" "ORD-2611-000042" (Some "phd") (Some "essay")
    (Some "Logic") (Some "On proofs") (Some "An essay") ""
    (now0 + 100 * hour) "standard" "standard" "none" (Num.ofZ 1)
    (Some (Num.ofZ 15)) (Some (Num.ofZ 15)) Status.pending
    [Entry.mk Status.pending now0 "Order created"] (Num.ofZ 0) "" None
    (Some "") None.



Definition noBody : Body.t := Body.mk None None None None None None None None.

Definition statusBody (s : Status.t) : Body.t :=
  Body.mk (Some s) None None None None None None None.

(** The collection after an administrator has completed the first order. *)
Definition ordersDone : gmap string Order.t :=
  (updateOrder env0 orders1 admin1 "65a001" (statusBody Status.completed)).2.

Definition orderDone : Order.t :=
  Order.push_statusHistory
    (Entry.mk Status.completed now0 "Status updated by admin")
    (Order.set_status Status.completed order1).

(** A body that asks for a progress of 50 and for admin notes. *)
Definition progressBody : Body.t :=
  Body.mk None (Some "done by me") (Some (Num.ofZ 50)) None None None None None.



(** * More of the controllers and of the models *)

(** ** Reading an order ([getOrder], [getOrderByNumber]) *)

(** [populate("student", ...)]: the reference is replaced by the user
    document, or by [null] when no user has that [_id]; [users] is the set
    of the [_id]s of the users collection. *)
Definition populated (users : gset string) (order : Order.t) : bool :=
  bool_decide (Order.student order ∈ users).

(** The checks that follow the lookup in both handlers. With a [null]
    student, [order.student._id] throws and the [catch] answers 500. *)
Definition viewOrder (users : gset string) (user : User.t)
    (found : option Order.t) : Response.t :=
  match found with
  | None => Response.fail 404 "Order not found"
  | Some order =>
      if negb (populated users order)
      then Response.fail 500 "Server error fetching order"
      else if negb (isOwner order user) && negb (isAdmin user)
      then Response.fail 403 "Not authorized to view this order"
      else Response.send 200 order
  end.

Definition getOrder (users : gset string) (orders : gmap string Order.t)
    (user : User.t) (id : string) : Response.t :=
  viewOrder users user (orders !! id).



(** ** The price preview ([calculatePrice] of both controllers) *)

Module Preview.
Record t : Type := mk {
  statusCode : Z;
  success : bool;
  totalPrice : number;
  currency : string;
  breakdown : option OrderData.t
}.
End Preview.

(** [calculatePrice] of the order controller. *)
Definition calculatePrice (rules : list PricingRule.t) (body : OrderData.t)
  : Preview.t :=
  Preview.mk 200 true (PricingRule.calculatePrice rules body) "USD" None.

(** [calculatePrice] of the pricing controller, which echoes the body. *)
Definition calculatePricePublic (rules : list PricingRule.t)
    (body : OrderData.t) : Preview.t :=
  Preview.mk 200 true (PricingRule.calculatePrice rules body) "USD" (Some body).

(** ** The virtuals of the order model *)

(** [isOverdue] *)
Definition isOverdue (now : Z) (order : Order.t) : bool :=
  (Order.deadline order <? now) && negb (Status.terminal (Order.status order)).

(** ** The paths of an order that only its creation assigns *)
Definition fixedPaths (o : Order.t) :=
  (Order.student o, Order.orderNumber o, Order.educationLevel o,
   Order.taskType o, Order.subject o, Order.title o, Order.description o,
   Order.deadline o, Order.urgency o, Order.complexityLevel o,
   Order.citationStyle o, Order.pageCount o, Order.basePrice o,
   Order.totalPrice o).


(** One request to a handler that writes. *)
Inductive Request : Type :=
  | Create (rules : list PricingRule.t) (user : User.t) (body : OrderData.t)
  | Update (user : User.t) (id : string) (body : Body.t)
  | Cancel (user : User.t) (id : string) (body : Body.t)
  | Review (user : User.t) (id : string) (body : Body.t).

Definition handle (env : Env) (orders : gmap string Order.t) (r : Request)
  : Response.t * gmap string Order.t :=
  match r with
  | Create rules user body => createOrder env rules orders user body
  | Update user id body => updateOrder env orders user id body
  | Cancel user id body => cancelOrder env orders user id body
  | Review user id body => reviewOrder env orders user id body
  end.

(** What a handler may do to the order it addresses: the paths that only
    the creation assigns stay, and the history grows at its end by at most
    one entry. *)
Definition lifecycleChange (order order' : Order.t) : Prop :=
  fixedPaths order' = fixedPaths order
  /\ Order.statusHistory order `prefix_of` Order.statusHistory order'
  /\ (length (Order.statusHistory order')
      <= S (length (Order.statusHistory order)))%nat.



(** [Number.isNaN] *)
Definition isNaN (x : number) : bool :=
  match x with S754_nan => true | _ => false end.


(** ** Order attributes with one of them replaced *)

Definition withPageCount (v : option number) (d : OrderData.t) : OrderData.t :=
  OrderData.mk (OrderData.student d) (OrderData.educationLevel d)
    (OrderData.taskType d) (OrderData.subject d) (OrderData.title d)
    (OrderData.description d) (OrderData.additionalInstructions d)
    (OrderData.deadline d) (OrderData.urgency d) (OrderData.complexityLevel d)
    (OrderData.citationStyle d) v (OrderData.basePrice d)
    (OrderData.totalPrice d) (OrderData.status d) (OrderData.statusHistory d)
    (OrderData.progress d) (OrderData.adminNotes d) (OrderData.rating d)
    (OrderData.review d) (OrderData.reviewedAt d).

Definition withUrgency (v : option string) (d : OrderData.t) : OrderData.t :=
  OrderData.mk (OrderData.student d) (OrderData.educationLevel d)
    (OrderData.taskType d) (OrderData.subject d) (OrderData.title d)
    (OrderData.description d) (OrderData.additionalInstructions d)
    (OrderData.deadline d) v (OrderData.complexityLevel d)
    (OrderData.citationStyle d) (OrderData.pageCount d) (OrderData.basePrice d)
    (OrderData.totalPrice d) (OrderData.status d) (OrderData.statusHistory d)
    (OrderData.progress d) (OrderData.adminNotes d) (OrderData.rating d)
    (OrderData.review d) (OrderData.reviewedAt d).

Definition withComplexityLevel (v : option string) (d : OrderData.t)
  : OrderData.t :=
  OrderData.mk (OrderData.student d) (OrderData.educationLevel d)
    (OrderData.taskType d) (OrderData.subject d) (OrderData.title d)
    (OrderData.description d) (OrderData.additionalInstructions d)
    (OrderData.deadline d) (OrderData.urgency d) v
    (OrderData.citationStyle d) (OrderData.pageCount d) (OrderData.basePrice d)
    (OrderData.totalPrice d) (OrderData.status d) (OrderData.statusHistory d)
    (OrderData.progress d) (OrderData.adminNotes d) (OrderData.rating d)
    (OrderData.review d) (OrderData.reviewedAt d).

Definition withCitationStyle (v : option string) (d : OrderData.t)
  : OrderData.t :=
  OrderData.mk (OrderData.student d) (OrderData.educationLevel d)
    (OrderData.taskType d) (OrderData.subject d) (OrderData.title d)
    (OrderData.description d) (OrderData.additionalInstructions d)
    (OrderData.deadline d) (OrderData.urgency d) (OrderData.complexityLevel d)
    v (OrderData.pageCount d) (OrderData.basePrice d)
    (OrderData.totalPrice d) (OrderData.status d) (OrderData.statusHistory d)
    (OrderData.progress d) (OrderData.adminNotes d) (OrderData.rating d)
    (OrderData.review d) (OrderData.reviewedAt d).

(** The enumeration of the [category] path of a pricing rule. *)
Definition schemaCategories : list string :=
  ["education_level"; "task_type"; "urgency"; "complexity"; "page_count";
   "citation_style"].

(** The categories that [calculatePrice] looks up. *)
Definition consultedCategories : list string :=
  ["education_level"; "task_type"; "urgency"; "complexity"; "citation_style"].

(** A finite double above zero, a finite double that is not negative, and a
    double that is not negative ([+Infinity] included). *)
Definition finitePositive (x : number) : bool :=
  match x with
  | S754_finite false _ _ => true
  | _ => false
  end.

Definition finiteNonNegative (x : number) : bool :=
  match x with
  | S754_zero _ => true
  | S754_finite s _ _ => negb s
  | _ => false
  end.

Definition nonNegative (x : number) : bool :=
  match x with
  | S754_nan => false
  | S754_zero _ => true
  | S754_infinity s | S754_finite s _ _ => negb s
  end.

(** The numbers that the schemas admit: a multiplier is finite and above
    zero, a base price and a page count are finite and not negative. *)
Definition schemaNumbers (rules : list PricingRule.t) (d : OrderData.t)
  : Prop :=
  (forall r, In r rules ->
     finitePositive (PricingRule.multiplier r) = true
     /\ finiteNonNegative (PricingRule.basePrice r) = true)
  /\ (forall n, OrderData.pageCount d = Some n -> finiteNonNegative n = true).


(** ** The rest of the pricing rule model and the pricing controller *)

(** The order of two numbers in a sort: that of the doubles, with [NaN]
    before every number. *)
Definition sortCompare (x y : number) : comparison :=
  match SFcompare x y with
  | Some c => c
  | None =>
      match x, y with
      | S754_nan, S754_nan => Eq
      | S754_nan, _ => Lt
      | _, _ => Gt
      end
  end.

(** [sort({ priority: -1, displayOrder: 1 })]: [a] may stand before [b]. *)
Definition byPriority (a b : PricingRule.t) : Prop :=
  match sortCompare (PricingRule.priority b) (PricingRule.priority a) with
  | Lt => True
  | Gt => False
  | Eq =>
      sortCompare (PricingRule.displayOrder a) (PricingRule.displayOrder b)
      <> Gt
  end.

Global Instance byPriority_dec (a b : PricingRule.t) : Decision (byPriority a b).
Proof.
  unfold byPriority.
  destruct (sortCompare (PricingRule.priority b) (PricingRule.priority a));
    apply _.
Defined.

(** [getActiveRulesByCategory]: the active rules of the category, sorted;
    rules that tie are kept in their natural order. *)
Definition getActiveRulesByCategory (rules : list PricingRule.t)
    (category : string) : list PricingRule.t :=
  merge_sort byPriority
    (List.filter
       (fun r => String.eqb (PricingRule.category r) category
                 && PricingRule.isActive r)
       rules).

(** An entry of [groupedRules]. *)
Module GroupEntry.
Record t : Type := mk {
  value : string;
  label : string;
  multiplier : number
}.
End GroupEntry.

Definition groupEntry (rule : PricingRule.t) : GroupEntry.t :=
  GroupEntry.mk (PricingRule.appliesTo rule) (PricingRule.displayName rule)
    (PricingRule.multiplier rule).

(** [if (!acc[k]) acc[k] = []; acc[k].push(v)] on an object whose keys keep
    the order in which they were added, for a key [k] that the object does
    not inherit (the categories of the schema are such keys). *)
Fixpoint pushGroup (k : string) (v : GroupEntry.t)
    (acc : list (string * list GroupEntry.t)) : list (string * list GroupEntry.t) :=
  match acc with
  | [] => [(k, [v])]
  | (k', vs) :: rest =>
      if String.eqb k' k then (k', (vs ++ [v])%list) :: rest
      else (k', vs) :: pushGroup k v rest
  end.

(** The [reduce] of [getPricingRules]. *)
Definition groupRules (rules : list PricingRule.t)
  : list (string * list GroupEntry.t) :=
  fold_left (fun acc rule => pushGroup (PricingRule.category rule)
                               (groupEntry rule) acc)
    rules [].

(** [acc[k]] *)
Definition group (k : string) (acc : list (string * list GroupEntry.t))
  : option (list GroupEntry.t) :=
  snd <$> List.find (fun kv => String.eqb (fst kv) k) acc.

(** [sort({ category: 1, displayOrder: 1 })] *)
Definition byCategoryThenOrder (a b : PricingRule.t) : Prop :=
  match String.compare (PricingRule.category a) (PricingRule.category b) with
  | Lt => True
  | Gt => False
  | Eq =>
      sortCompare (PricingRule.displayOrder a) (PricingRule.displayOrder b)
      <> Gt
  end.

Global Instance byCategoryThenOrder_dec (a b : PricingRule.t) :
  Decision (byCategoryThenOrder a b).
Proof.
  unfold byCategoryThenOrder.
  destruct (String.compare (PricingRule.category a) (PricingRule.category b));
    apply _.
Defined.

(** The data of [getPricingRules]: the active rules, sorted, and their
    grouping. *)
Definition getPricingRules (rules : list PricingRule.t)
  : list PricingRule.t * list (string * list GroupEntry.t) :=
  let rules :=
    merge_sort byCategoryThenOrder (List.filter PricingRule.isActive rules) in
  (rules, groupRules rules).

(** The double that a decimal literal denotes: the one nearest to
    [digits / scale]. *)
Definition decimal (digits scale : Z) : number :=
  Num.div (Num.ofZ digits) (Num.ofZ scale).

(** A rule of [defaultRules]; the paths that the literal leaves out take the
    defaults of the schema. *)
Definition seedRule (name category : string) (multiplier : number)
    (appliesTo displayName : string) (displayOrder priority : Z)
  : PricingRule.t :=
  PricingRule.mk name category multiplier (Num.ofZ 0) appliesTo displayName
    (Num.ofZ displayOrder) true (Num.ofZ priority).

Definition defaultRules : list PricingRule.t :=
  [ seedRule "high_school_level" "education_level" (decimal 10 10)
      "high_school" "High School" 1 10;
    seedRule "undergraduate_level" "education_level" (decimal 15 10)
      "undergraduate" "Undergraduate" 2 10;
    seedRule "graduate_level" "education_level" (decimal 20 10)
      "graduate" "Graduate" 3 10;
    seedRule "phd_level" "education_level" (decimal 30 10)
      "phd" "PhD" 4 10;
    seedRule "essay_task" "task_type" (decimal 10 10) "essay" "Essay" 1 10;
    seedRule "research_paper_task" "task_type" (decimal 15 10)
      "research_paper" "Research Paper" 2 10;
    seedRule "thesis_task" "task_type" (decimal 30 10) "thesis" "Thesis" 3 10;
    seedRule "dissertation_task" "task_type" (decimal 40 10)
      "dissertation" "Dissertation" 4 10;
    seedRule "editing_task" "task_type" (decimal 6 10) "editing" "Editing" 5 10;
    seedRule "proofreading_task" "task_type" (decimal 4 10)
      "proofreading" "Proofreading" 6 10;
    seedRule "standard_urgency" "urgency" (decimal 10 10)
      "standard" "Standard (7+ days)" 1 5;
    seedRule "rush_urgency" "urgency" (decimal 125 100)
      "rush" "Rush (3-7 days)" 2 5;
    seedRule "urgent_urgency" "urgency" (decimal 15 10)
      "urgent" "Urgent (1-3 days)" 3 5;
    seedRule "basic_complexity" "complexity" (decimal 8 10) "basic" "Basic" 1 5;
    seedRule "standard_complexity" "complexity" (decimal 10 10)
      "standard" "Standard" 2 5;
    seedRule "advanced_complexity" "complexity" (decimal 13 10)
      "advanced" "Advanced" 3 5;
    seedRule "expert_complexity" "complexity" (decimal 15 10)
      "expert" "Expert" 4 5;
    seedRule "no_citation" "citation_style" (decimal 10 10)
      "none" "No Citation Style" 1 3;
    seedRule "apa_citation" "citation_style" (decimal 11 10) "apa" "APA" 2 3;
    seedRule "mla_citation" "citation_style" (decimal 11 10) "mla" "MLA" 3 3;
    seedRule "chicago_citation" "citation_style" (decimal 115 100)
      "chicago" "Chicago" 4 3;
    seedRule "harvard_citation" "citation_style" (decimal 115 100)
      "harvard" "Harvard" 5 3;
    seedRule "ieee_citation" "citation_style" (decimal 12 10) "ieee" "IEEE" 6 3 ].

(** [seedPricingRules]: [deleteMany({})], then [insertMany(defaultRules)];
    the message and the catalog afterwards. *)
Definition seedPricingRules (rules : list PricingRule.t)
  : string * list PricingRule.t :=
  let inserted := defaultRules in
  (String.append "Seeded "
     (String.append (pretty (length inserted)) " pricing rules"),
   inserted).

(** ** The enumerations of the validators and of the order schema *)

(** [isIn(values)] of a validator, [enum] of a schema path. *)
Definition isIn (values : list string) (s : string) : bool :=
  existsb (String.eqb s) values.

Definition validatedTaskTypes : list string :=
  [ "essay"; "research_paper"; "technical_writing"; "editing"; "proofreading";
    "research_assistance"; "tutoring"; "formatting"; "study_support";
    "thesis"; "dissertation"; "case_study"; "report"; "presentation" ].

Definition schemaTaskTypes : list string :=
  [ "quiz"; "essay"; "research_paper"; "technical_writing"; "editing";
    "proofreading"; "research_assistance"; "tutoring"; "formatting";
    "study_support"; "thesis"; "dissertation"; "case_study"; "report";
    "presentation" ].

Definition typeMap : list (string * string) :=
  [ ("essay", "Essay"); ("research_paper", "Research Paper");
    ("technical_writing", "Technical Writing"); ("editing", "Editing");
    ("proofreading", "Proofreading");
    ("research_assistance", "Research Assistance"); ("tutoring", "Tutoring");
    ("formatting", "Formatting"); ("study_support", "Study Support");
    ("thesis", "Thesis"); ("dissertation", "Dissertation");
    ("case_study", "Case Study"); ("report", "Report");
    ("presentation", "Presentation") ].

Definition levelMap : list (string * string) :=
  [ ("high_school", "High School"); ("undergraduate", "Undergraduate");
    ("graduate", "Graduate"); ("phd", "PhD") ].

Definition schemaEducationLevels : list string :=
  [ "high_school"; "undergraduate"; "graduate"; "phd" ].

(** [map[key] || key] on an object literal, for a key that the object does
    not inherit (the values of the schema's enumerations are such keys). *)
Definition labelOr (map : list (string * string)) (key : string) : string :=
  match List.find (fun kv => String.eqb (fst kv) key) map with
  | Some (_, label) => if truthyStr label then label else key
  | None => key
  end.

(** [getFormattedTaskType] and [getFormattedEducationLevel]. *)
Definition getFormattedTaskType (taskType : string) : string :=
  labelOr typeMap taskType.

Definition getFormattedEducationLevel (educationLevel : string) : string :=
  labelOr levelMap educationLevel.

(** ** The authentication middleware *)

(** [s.split(sep)] for a separator of one character. *)
Fixpoint split (sep : ascii) (s : string) : list string :=
  match s with
  | EmptyString => [""]
  | String c s' =>
      if Ascii.eqb c sep then "" :: split sep s'
      else
        match split sep s' with
        | [] => [String c ""]
        | w :: ws => String c w :: ws
        end
  end.

(** The token that [protect] and [optionalAuth] read off the
    [Authorization] header. *)
Definition bearerToken (authorization : option string) : option string :=
  match authorization with
  | Some header =>
      if truthyStr header && String.prefix "Bearer" header
      then nth_error (split " "%char header) 1
      else None
  | None => None
  end.

(** A user document, as far as the middleware reads it; [None] is
    [undefined]. *)
Module Account.
Record t : Type := mk {
  role : string;
  isActive : bool;
  tokenVersion : option Z
}.
End Account.

(** The payload of a verified token. *)
Module Decoded.
Record t : Type := mk {
  id : string;
  tokenVersion : option Z
}.
End Decoded.

(** What a middleware does: it calls [next()], with [req.user] as it then
    is, or it answers. *)
Inductive Gate : Type :=
  | Next (user : option User.t)
  | Answer (statusCode : Z) (error : string).

(** [(decoded.tokenVersion ?? 0) !== user.tokenVersion] *)
Definition tokenRevoked (decoded : Decoded.t) (user : Account.t) : bool :=
  negb (bool_decide
          (Account.tokenVersion user
           = Some (default 0 (Decoded.tokenVersion decoded)))).

(** [protect]; [verify] is [jwt.verify] with the secret, [None] when it
    throws, and [users] is the users collection. *)
Definition protect (verify : string -> option Decoded.t)
    (users : gmap string Account.t) (authorization : option string) : Gate :=
  match bearerToken authorization with
  | None => Answer 401 "Not authorized to access this route"
  | Some token =>
      if negb (truthyStr token)
      then Answer 401 "Not authorized to access this route"
      else
        match verify token with
        | None => Answer 401 "Not authorized to access this route"
        | Some decoded =>
            match users !! Decoded.id decoded with
            | None => Answer 401 "User not found"
            | Some user =>
                if tokenRevoked decoded user
                then Answer 401 "Token has been revoked. Please log in again."
                else if negb (Account.isActive user)
                then Answer 401 "User account is deactivated"
                else Next (Some (User.mk (Decoded.id decoded)
                                   (Account.role user)))
            end
        end
  end.




(** ** The error handler ([src/utils/errorHandler.js]) *)

(** An error object, as far as the handler reads it; [None] is
    [undefined]. For a Mongoose validation error [errors] holds the
    messages of [Object.values(err.errors)], and [keyValue] the keys of
    [err.keyValue]. *)
Module Err.
Record t : Type := mk {
  name : string;
  message : option string;
  statusCode : option Z;
  code : option Z;
  keyValue : option (list string);
  errors : option (list string);
  stack : option string
}.
End Err.

Module ApiError.
Record t : Type := mk {
  statusCode : Z;
  message : string;
  errors : option (list string);
  status : string;
  isOperational : bool
}.

(** [new ApiError(statusCode, message, errors)] *)
Definition new (statusCode : Z) (message : string)
    (errors : option (list string)) : t :=
  mk statusCode message errors
    (if String.prefix "4" (pretty statusCode) then "fail" else "error")
    true.
End ApiError.

(** What the handler sends. *)
Module ErrorReply.
Record t : Type := mk {
  statusCode : Z;
  success : bool;
  message : string;
  errors : option (list string);
  stack : option string
}.
End ErrorReply.

(** [a || d] for an optional status code. *)
Definition codeOr (a : option Z) (d : Z) : Z :=
  match a with
  | Some c => if c =? 0 then d else c
  | None => d
  end.

(** The three properties of [error] that the handler reads. *)
Definition picked (statusCode : Z) (message : string)
    (errors : option (list string)) : Z * string * option (list string) :=
  (statusCode, message, errors).

Definition pickedOf (e : ApiError.t) : Z * string * option (list string) :=
  picked (ApiError.statusCode e) (ApiError.message e) (ApiError.errors e).

(** [errorHandler]; [production] is [NODE_ENV === "production"]. The
    result is [None] when the handler itself throws, which it does on a
    validation error without [errors]. *)
Definition errorHandler (production : bool) (err : Err.t)
  : option ErrorReply.t :=
  let error :=
    picked (codeOr (Err.statusCode err) 500)
      (strOr (Err.message err) "Server Error") (Err.errors err) in
  let error :=
    if String.eqb (Err.name err) "CastError"
    then pickedOf (ApiError.new 404 "Resource not found" None) else error in
  let error :=
    if bool_decide (Err.code err = Some 11000)
    then
      let field := default "undefined" (head (default [] (Err.keyValue err))) in
      pickedOf
        (ApiError.new 400
           (String.append "Duplicate field value: "
              (String.append field ". Please use another value."))
           None)
    else error in
  let error :=
    if String.eqb (Err.name err) "ValidationError"
    then
      match Err.errors err with
      | Some messages =>
          Some (pickedOf
                  (ApiError.new 400 "Validation Error" (Some messages)))
      | None => None
      end
    else Some error in
  let error :=
    if String.eqb (Err.name err) "JsonWebTokenError"
    then
      (fun _ =>
         pickedOf
           (ApiError.new 401 "Invalid token. Please log in again." None))
      <$> error
    else error in
  let error :=
    if String.eqb (Err.name err) "TokenExpiredError"
    then
      (fun _ =>
         pickedOf
           (ApiError.new 401 "Your token has expired. Please log in again."
              None))
      <$> error
    else error in
  (fun error : Z * string * option (list string) =>
     ErrorReply.mk error.1.1 false error.1.2 error.2
       (if production then None else Err.stack err))
  <$> error.

(** [notFound]: the error handed to [next], with the stack it captured. *)
Definition notFound (originalUrl : string) (stack : option string) : Err.t :=
  let e := ApiError.new 404 (String.append "Not found - " originalUrl) None in
  Err.mk "Error" (Some (ApiError.message e)) (Some (ApiError.statusCode e))
    None None (ApiError.errors e) stack.

(** ** Users, tokens and errors to run the middleware on *)

(** The token "tok1" verifies and names the administrator; no other token
    verifies. *)
Definition verify1 (token : string) : option Decoded.t :=
  if String.eqb token "tok1" then Some (Decoded.mk "64f0c3" (Some 0))
  else None.

Definition accounts1 : gmap string Account.t :=
  {[ "64f0c3" := Account.mk "admin" true (Some 0) ]}.

(** The user documents as the user schema has them: without a token
    version. *)
Definition accountsOfSchema : gmap string Account.t :=
  {[ "64f0c3" := Account.mk "admin" true None ]}.

Definition users1 : gset string := {[ "64f0a1" ]}.

Definition duplicateKey : Err.t :=
  Err.mk "MongoServerError" (Some "E11000 duplicate key") None (Some 11000)
    (Some ["email"]) None (Some "at insert").

(** A rule of a category that no price looks up. *)
Definition pageRule : PricingRule.t :=
  aRule "long_paper" "page_count" "50" 2 true.

(** * Canonical doubles *)

Section Canonical.

(** Bounds of a positive number by its number of binary digits. *)
Lemma digits2_pos_bounds (p : positive) :
  2 ^ (Z.pos (digits2_pos p) - 1) <= Z.pos p < 2 ^ Z.pos (digits2_pos p).
Proof.
  induction p as [p IH|p IH|]; cbn [digits2_pos].
  - rewrite Pos2Z.inj_succ.
    replace (Z.succ (Z.pos (digits2_pos p)) - 1)
      with (Z.succ (Z.pos (digits2_pos p) - 1)) by lia.
    rewrite !Z.pow_succ_r by lia. lia.
  - rewrite Pos2Z.inj_succ.
    replace (Z.succ (Z.pos (digits2_pos p)) - 1)
      with (Z.succ (Z.pos (digits2_pos p) - 1)) by lia.
    rewrite !Z.pow_succ_r by lia. lia.
  - simpl. lia.
Qed.

(** The number of digits is determined by the bounds. *)
Lemma Zdigits2_unique (m d : Z) :
  0 < d -> 2 ^ (d - 1) <= m < 2 ^ d -> Zdigits2 m = d.
Proof.
  intros Hd [Hlo Hhi].
  assert (0 < m) by (pose proof (Z.pow_pos_nonneg 2 (d - 1)); lia).
  destruct m as [|p|p]; try lia. cbn [Zdigits2].
  pose proof (digits2_pos_bounds p) as [Blo Bhi].
  set (k := Z.pos (digits2_pos p)) in *.
  assert (0 < k) by (unfold k; lia).
  destruct (Z.lt_trichotomy k d) as [Hlt|[Heq|Hgt]]; [|exact Heq|].
  - assert (2 ^ k <= 2 ^ (d - 1)) by (apply Z.pow_le_mono_r; lia). lia.
  - assert (2 ^ d <= 2 ^ (k - 1)) by (apply Z.pow_le_mono_r; lia). lia.
Qed.

Lemma Zdigits2_bounds (m : Z) :
  0 < m -> 0 < Zdigits2 m /\ 2 ^ (Zdigits2 m - 1) <= m < 2 ^ Zdigits2 m.
Proof.
  destruct m as [|p|p]; try lia. intros _. cbn [Zdigits2].
  split; [lia | apply digits2_pos_bounds].
Qed.

(** [shr_1] halves the mantissa. *)
Lemma shr_1_m (r : shr_record) :
  0 <= shr_m r -> shr_m (shr_1 r) = shr_m r / 2.
Proof.
  destruct r as [m b s]. cbn [shr_m]. intros Hm.
  destruct m as [|[p|p|]|p]; try lia; cbn [shr_1 shr_m].
  - reflexivity.
  - rewrite Pos2Z.inj_xI. apply Z.div_unique with 1; lia.
  - rewrite Pos2Z.inj_xO. apply Z.div_unique with 0; lia.
  - reflexivity.
Qed.

Lemma pow2_xO (p : positive) : 2 ^ Z.pos p~0 = 2 ^ Z.pos p * 2 ^ Z.pos p.
Proof. rewrite <- Z.pow_add_r by lia. f_equal. lia. Qed.

Lemma pow2_xI (p : positive) : 2 ^ Z.pos p~1 = 2 * (2 ^ Z.pos p * 2 ^ Z.pos p).
Proof.
  rewrite <- Z.pow_add_r by lia.
  replace (Z.pos p~1) with (Z.succ (Z.pos p + Z.pos p)) by lia.
  rewrite Z.pow_succ_r by lia. reflexivity.
Qed.

Lemma iter_shr_1_m (p : positive) (r : shr_record) :
  0 <= shr_m r ->
  shr_m (SpecFloat.iter_pos shr_1 p r) = shr_m r / 2 ^ Z.pos p.
Proof.
  revert r. induction p as [p IH|p IH|]; intros r Hr; cbn [SpecFloat.iter_pos].
  - assert (Hp : 0 < 2 ^ Z.pos p) by (apply Z.pow_pos_nonneg; lia).
    assert (H1 : 0 <= shr_m (shr_1 r)).
    { rewrite shr_1_m by exact Hr. apply Z.div_pos; lia. }
    assert (H2 : 0 <= shr_m (SpecFloat.iter_pos shr_1 p (shr_1 r))).
    { rewrite IH by exact H1. apply Z.div_pos; lia. }
    rewrite IH by exact H2. rewrite IH by exact H1. rewrite shr_1_m by exact Hr.
    rewrite !Z.div_div by lia. rewrite pow2_xI. f_equal; lia.
  - assert (Hp : 0 < 2 ^ Z.pos p) by (apply Z.pow_pos_nonneg; lia).
    assert (H2 : 0 <= shr_m (SpecFloat.iter_pos shr_1 p r)).
    { rewrite IH by exact Hr. apply Z.div_pos; lia. }
    rewrite IH by exact H2. rewrite IH by exact Hr.
    rewrite !Z.div_div by lia. rewrite pow2_xO. reflexivity.
  - rewrite shr_1_m by exact Hr. reflexivity.
Qed.

Lemma fexp_eq (x : Z) : fexp 53 1024 x = Z.max (x - 53) (-1074).
Proof. reflexivity. Qed.

Lemma shr_record_of_loc_m m l : shr_m (shr_record_of_loc m l) = m.
Proof. destruct l as [|[]]; reflexivity. Qed.

(** One shift to the canonical exponent. *)
Lemma shr_fexp_canonical (m e : Z) (l : location) :
  0 < m ->
  e <= fexp 53 1024 (Zdigits2 m + e) ->
  0 <= shr_m (shr_fexp 53 1024 m e l).1
  /\ (shr_fexp 53 1024 m e l).2 = fexp 53 1024 (Zdigits2 m + e)
  /\ (0 < shr_m (shr_fexp 53 1024 m e l).1 ->
      fexp 53 1024 (Zdigits2 (shr_m (shr_fexp 53 1024 m e l).1)
                    + (shr_fexp 53 1024 m e l).2)
      = (shr_fexp 53 1024 m e l).2)
  /\ (shr_m (shr_fexp 53 1024 m e l).1 = 0 ->
      (shr_fexp 53 1024 m e l).2 = -1074).
Proof.
  intros Hm He. unfold shr_fexp.
  destruct (Zdigits2_bounds m Hm) as (HD & Hlo & Hhi).
  set (D := Zdigits2 m) in *.
  set (n := fexp 53 1024 (D + e) - e).
  assert (Hn : 0 <= n) by (unfold n; lia).
  destruct n as [|p|p] eqn:En; try lia; cbn [shr fst snd].
  - rewrite shr_record_of_loc_m. fold D.
    assert (e = fexp 53 1024 (D + e)) by lia.
    repeat split; intros; lia || congruence.
  - rewrite iter_shr_1_m by (rewrite shr_record_of_loc_m; lia).
    rewrite shr_record_of_loc_m.
    assert (Hp : 0 < 2 ^ Z.pos p) by (apply Z.pow_pos_nonneg; lia).
    assert (He' : e + Z.pos p = fexp 53 1024 (D + e)) by lia.
    split; [apply Z.div_pos; lia|]. split; [exact He'|]. split.
    + intros Hpos.
      assert (Hge : 2 ^ Z.pos p <= m).
      { destruct (Z.le_gt_cases (2 ^ Z.pos p) m) as [H|H]; [exact H|].
        rewrite Z.div_small in Hpos by lia. lia. }
      assert (Hlt : Z.pos p < D).
      { apply (Z.pow_lt_mono_r_iff 2); lia. }
      assert (Hd : Zdigits2 (m / 2 ^ Z.pos p) = D - Z.pos p).
      { apply Zdigits2_unique; [lia|]. split.
        - replace (2 ^ (D - 1)) with (2 ^ (D - Z.pos p - 1) * 2 ^ Z.pos p) in Hlo
            by (rewrite <- Z.pow_add_r by lia; f_equal; lia).
          apply Z.div_le_lower_bound; lia.
        - apply Z.div_lt_upper_bound; [lia|].
          rewrite <- Z.pow_add_r by lia.
          replace (Z.pos p + (D - Z.pos p)) with D by lia. exact Hhi. }
      rewrite Hd. replace (D - Z.pos p + (e + Z.pos p)) with (D + e) by lia.
      symmetry. exact He'.
    + intros Hz.
      assert (Hsmall : m < 2 ^ Z.pos p).
      { destruct (Z.le_gt_cases (2 ^ Z.pos p) m) as [H|H]; [|lia].
        assert (1 <= m / 2 ^ Z.pos p) by (apply Z.div_le_lower_bound; lia). lia. }
      assert (HDp : D <= Z.pos p).
      { destruct (Z.le_gt_cases D (Z.pos p)) as [H|H]; [exact H|].
        assert (2 ^ Z.pos p <= 2 ^ (D - 1)) by (apply Z.pow_le_mono_r; lia). lia. }
      rewrite fexp_eq in *. lia.
Qed.

Lemma round_nearest_even_cases m l :
  round_nearest_even m l = m \/ round_nearest_even m l = m + 1.
Proof.
  destruct l as [|[]]; cbn [round_nearest_even]; auto.
  destruct (Z.even m); auto.
Qed.

Lemma Zdigits2_succ_le (m : Z) : 0 < m -> Zdigits2 m <= Zdigits2 (m + 1).
Proof.
  intros Hm.
  destruct (Zdigits2_bounds m Hm) as (Hd & Hlo & Hhi).
  destruct (Zdigits2_bounds (m + 1) ltac:(lia)) as (Hd' & Hlo' & Hhi').
  assert (Zdigits2 m - 1 < Zdigits2 (m + 1)); [|lia].
  apply (Z.pow_lt_mono_r_iff 2); lia.
Qed.

(** Rounding a positive mantissa whose exponent is at most the canonical
    one yields a canonical double. *)
Lemma binary_round_aux_valid (s : bool) (mx ex : Z) (lx : location) :
  0 < mx ->
  ex <= fexp 53 1024 (Zdigits2 mx + ex) ->
  valid_binary 53 1024 (binary_round_aux 53 1024 s mx ex lx) = true.
Proof.
  intros Hm He. unfold binary_round_aux.
  destruct (shr_fexp_canonical mx ex lx Hm He) as (H0 & He1 & Hcan & Hzero).
  destruct (shr_fexp 53 1024 mx ex lx) as [mrs1 e1]. cbn [fst snd] in *.
  set (m1 := shr_m mrs1) in *.
  set (m2 := round_nearest_even m1 (loc_of_shr_record mrs1)).
  assert (Hm2 : m2 = m1 \/ m2 = m1 + 1) by apply round_nearest_even_cases.
  destruct (Z.eq_dec m2 0) as [Hz|Hnz].
  - (* the rounded mantissa is zero *)
    rewrite Hz. unfold shr_fexp. cbn [Zdigits2 shr_record_of_loc].
    destruct (fexp 53 1024 (0 + e1) - e1) as [|p|p]; cbn [shr];
      try reflexivity.
    rewrite iter_shr_1_m by (cbn; lia). cbn [shr_m].
    rewrite Z.div_0_l by (apply Z.pow_nonzero; lia). reflexivity.
  - assert (Hpos : 0 < m2) by lia.
    assert (Hpre : e1 <= fexp 53 1024 (Zdigits2 m2 + e1)).
    { destruct (Z.eq_dec m1 0) as [Hm1|Hm1].
      - assert (m2 = 1) by lia. subst m2. rewrite H.
        rewrite (Hzero Hm1). rewrite fexp_eq. cbn. lia.
      - assert (Hm1pos : 0 < m1) by lia.
        specialize (Hcan Hm1pos).
        assert (Zdigits2 m1 <= Zdigits2 m2).
        { destruct Hm2 as [->| ->]; [lia | now apply Zdigits2_succ_le]. }
        rewrite fexp_eq in *. lia. }
    destruct (shr_fexp_canonical m2 e1 loc_Exact Hpos Hpre)
      as (H0' & He2 & Hcan' & _).
    destruct (shr_fexp 53 1024 m2 e1 loc_Exact) as [mrs2 e2].
    cbn [fst snd] in *.
    destruct (shr_m mrs2) as [|m3|m3] eqn:E3; try lia; [reflexivity|].
    destruct (e2 <=? 1024 - 53) eqn:Hb; [|reflexivity].
    cbn [valid_binary]. unfold bounded, canonical_mantissa.
    rewrite Hb, andb_true_r. apply Z.eqb_eq.
    specialize (Hcan' ltac:(lia)). exact Hcan'.
Qed.

Lemma canonical_digits (m : positive) (e : Z) :
  canonical_mantissa 53 1024 m e = true ->
  Z.pos (digits2_pos m) <= 53
  /\ -1074 <= e
  /\ (Z.pos (digits2_pos m) = 53 \/ e = -1074).
Proof.
  unfold canonical_mantissa. intros H. apply Z.eqb_eq in H.
  rewrite fexp_eq in H. lia.
Qed.

(** The product of two canonical doubles is a canonical double. *)
Lemma SFmul_valid (x y : spec_float) :
  valid_binary 53 1024 x = true ->
  valid_binary 53 1024 y = true ->
  valid_binary 53 1024 (SFmul 53 1024 x y) = true.
Proof.
  destruct x as [sx|sx| |sx mx ex], y as [sy|sy| |sy my ey];
    try reflexivity.
  cbn [valid_binary]. unfold bounded. intros Hx Hy.
  apply andb_true_iff in Hx as [Hx _]. apply andb_true_iff in Hy as [Hy _].
  apply canonical_digits in Hx as (Hdx & Hex & Hx).
  apply canonical_digits in Hy as (Hdy & Hey & Hy).
  cbn [SFmul]. apply binary_round_aux_valid; [lia|].
  pose proof (digits2_pos_bounds mx) as [Hlx Hhx].
  pose proof (digits2_pos_bounds my) as [Hly Hhy].
  destruct (Zdigits2_bounds (Z.pos (mx * my)) ltac:(lia)) as (HD & Hlo & Hhi).
  set (D := Zdigits2 (Z.pos (mx * my))) in *.
  set (dx := Z.pos (digits2_pos mx)) in *.
  set (dy := Z.pos (digits2_pos my)) in *.
  assert (HDge : dx + dy - 1 <= D).
  { assert (dx + dy - 2 < D); [|lia].
    apply (Z.pow_lt_mono_r_iff 2); [lia..|].
    replace (dx + dy - 2) with ((dx - 1) + (dy - 1)) by lia.
    rewrite Z.pow_add_r by (unfold dx, dy; lia).
    rewrite Pos2Z.inj_mul in Hhi.
    assert (2 ^ (dx - 1) * 2 ^ (dy - 1) <= Z.pos mx * Z.pos my)
      by (apply Z.mul_le_mono_nonneg; try apply Z.pow_nonneg; lia).
    lia. }
  rewrite fexp_eq. unfold dx, dy in *. lia.
Qed.

Lemma mul_canonical (x y : number) :
  canonical x -> canonical y -> canonical (Num.mul x y).
Proof. apply SFmul_valid. Qed.

Lemma orElse_canonical (x y : number) :
  canonical x -> canonical y -> canonical (Num.orElse x y).
Proof. intros Hx Hy. unfold Num.orElse. now destruct (Num.truthy x). Qed.

(** A canonical double multiplied by 1.0 is itself. *)
Lemma mul_one_canonical (x : number) :
  canonical x -> Num.mul x (Num.ofZ 1) = x.
Proof.
  unfold canonical. destruct x as [s|s| |s m e]; intros Hv.
  - simpl. now destruct s.
  - simpl. now destruct s.
  - reflexivity.
  - change (Num.ofZ 1) with (S754_finite false 4503599627370496 (-52)).
    unfold Num.mul, SFmul, Num.prec, Num.emax in *.
    simpl in Hv. unfold bounded, canonical_mantissa in Hv.
    apply andb_true_iff in Hv as [Hc Hb]. apply Z.eqb_eq in Hc.
    rewrite Pos.mul_comm.
    replace (4503599627370496 * m)%positive
      with (Pos.iter xO m 52) by reflexivity.
    unfold binary_round_aux, shr_fexp.
    assert (HD : Zdigits2 (Z.pos (Pos.iter xO m 52))
                 = Z.pos (digits2_pos m) + 52).
    { cbn [Pos.iter Zdigits2 digits2_pos]. lia. }
    rewrite HD.
    assert (HS : fexp 53 1024 (Z.pos (digits2_pos m) + 52 + (e + -52))
                 - (e + -52) = 52).
    { replace (Z.pos (digits2_pos m) + 52 + (e + -52))
        with (Z.pos (digits2_pos m) + e) by lia.
      rewrite Hc. lia. }
    rewrite HS.
    cbn [Pos.iter shr shr_record_of_loc SpecFloat.iter_pos shr_1 orb].
    cbn [shr_m loc_of_shr_record round_nearest_even Zdigits2].
    replace (e + -52 + 52) with e by lia.
    rewrite Hc, Z.sub_diag. cbn [shr shr_record_of_loc shr_m].
    rewrite xorb_false_r, Hb. reflexivity.
Qed.

End Canonical.

(** * Properties of the pricing engine *)

Section Catalog.

Import PricingRule.

Lemma byCategory_true c a r :
  byCategory c a r = true <->
  category r = c /\ appliesTo r = a /\ isActive r = true.
Proof.
  unfold byCategory. rewrite !andb_true_iff, !String.eqb_eq. tauto.
Qed.

Lemma byName_true n r :
  byName n r = true <-> name r = n /\ isActive r = true.
Proof. unfold byName. rewrite andb_true_iff, String.eqb_eq. tauto. Qed.

(** A lookup finds nothing exactly when no rule passes the filter. *)
Lemma findOne_None filter rules :
  findOne filter rules = None <-> forall r, In r rules -> filter r = false.
Proof.
  unfold findOne. split.
  - intros H r Hr. exact (find_none filter rules H r Hr).
  - induction rules as [|x xs IH]; intros H; simpl; [reflexivity|].
    rewrite (H x (or_introl eq_refl)). apply IH.
    intros r Hr. apply H. now right.
Qed.

Lemma findOne_Some filter rules r :
  findOne filter rules = Some r -> In r rules /\ filter r = true.
Proof. apply find_some. Qed.

Lemma findOne_is_Some filter rules r :
  In r rules -> filter r = true -> exists r', findOne filter rules = Some r'.
Proof.
  intros Hin Hf. destruct (findOne filter rules) as [r'|] eqn:E; [eauto|].
  rewrite findOne_None in E. rewrite (E r Hin) in Hf. discriminate.
Qed.

Variable specs : list (string * string * number).
Variable rules : list PricingRule.t.
Hypothesis Hcat : activeRulesAre specs rules.

(** No active rule is named for the base rate: the default applies. *)
Lemma described_basePricePerPage : basePricePerPage rules = Num.ofZ 15.
Proof.
  unfold basePricePerPage.
  destruct (findOne _ rules) as [r|] eqn:E; [|reflexivity].
  apply findOne_Some in E as [Hin Hf]. apply byName_true in Hf as [Hn Ha].
  destruct Hcat as [H _]. destruct (H r Hin Ha) as [Hne _]. contradiction.
Qed.

(** A key listed once, with multiplier [m]: the lookup finds a rule with
    that multiplier. *)
Lemma described_lookup_Some c a m :
  In (c, a, m) specs ->
  (forall m', In (c, a, m') specs -> m' = m) ->
  exists r, findOne (byCategory c a) rules = Some r /\ multiplier r = m.
Proof.
  intros Hin Huniq. destruct Hcat as [Hall Hex].
  destruct (Hex _ Hin) as (r0 & Hr0 & Hact & Hc & Ha & Hm). simpl in *.
  destruct (findOne_is_Some (byCategory c a) rules r0 Hr0) as [r Hr].
  { apply byCategory_true. auto. }
  exists r. split; [exact Hr|].
  apply findOne_Some in Hr as [Hrin Hf].
  apply byCategory_true in Hf as (Hc' & Ha' & Hact').
  destruct (Hall r Hrin Hact') as [_ ([[c1 a1] m1] & Hs & Hd1 & Hd2 & Hd3)].
  simpl in *. subst c1 a1 m1. rewrite Hc', Ha' in Hs. now apply Huniq.
Qed.

(** A key that is not listed: the lookup finds nothing. *)
Lemma described_lookup_None c a :
  (forall m, ~ In (c, a, m) specs) ->
  findOne (byCategory c a) rules = None.
Proof.
  intros Hno. apply findOne_None. intros r Hr.
  destruct (byCategory c a r) eqn:E; [|reflexivity].
  apply byCategory_true in E as (Hc & Ha & Hact).
  destruct Hcat as [Hall _].
  destruct (Hall r Hr Hact) as [_ ([[c1 a1] m1] & Hs & Hd1 & Hd2 & Hd3)].
  simpl in *. subst. now apply Hno in Hs.
Qed.

End Catalog.

Ltac key_listed :=
  simpl; repeat (first [left; reflexivity | right]).

Ltac key_unique :=
  let m := fresh "m" in let H := fresh "H" in
  intros m H; simpl in H;
  repeat (destruct H as [H|H]; [inversion H; reflexivity || discriminate|]);
  try contradiction; try (inversion H; reflexivity).

Ltac key_absent :=
  let m := fresh "m" in let H := fresh "H" in
  intros m H; simpl in H;
  repeat (destruct H as [H|H]; [discriminate H|]); contradiction.

Lemma citationRule_absent_or_none rules style :
  style = None \/ style = Some "none" -> PricingRule.citationRule rules style = None.
Proof. intros [->| ->]; reflexivity. Qed.

(** C2. With exactly the active rules education_level:phd -> 3.0,
    task_type:essay -> 1.0, urgency:standard -> 1.0 and
    complexity:standard -> 1.0, no active base-rate rule, and an order for a
    phd essay of 2 pages with standard urgency and complexity and no
    citation style, [calculatePrice] returns exactly 90. *)
Theorem calculatePrice_phd_essay_90 (rules : list PricingRule.t) (d : OrderData.t) :
  activeRulesAre rules90 rules ->
  phdEssayTwoPages d ->
  PricingRule.calculatePrice rules d = Num.ofZ 90.
Proof.
  intros Hcat (He & Ht & Hu & Hc & Hs & Hp).
  unfold PricingRule.calculatePrice, PricingRule.pageCountOf.
  rewrite (described_basePricePerPage _ _ Hcat), He, Ht, Hu, Hc, Hp.
  rewrite (citationRule_absent_or_none _ _ Hs). cbn [PricingRule.findRule].
  destruct (described_lookup_Some _ _ Hcat "education_level" "phd" (Num.ofZ 3))
    as (r1 & -> & M1); [key_listed | key_unique |].
  destruct (described_lookup_Some _ _ Hcat "task_type" "essay" (Num.ofZ 1))
    as (r2 & -> & M2); [key_listed | key_unique |].
  change (strOr (Some "standard") "standard") with "standard".
  destruct (described_lookup_Some _ _ Hcat "urgency" "standard" (Num.ofZ 1))
    as (r3 & -> & M3); [key_listed | key_unique |].
  destruct (described_lookup_Some _ _ Hcat "complexity" "standard" (Num.ofZ 1))
    as (r4 & -> & M4); [key_listed | key_unique |].
  unfold PricingRule.applyRule. rewrite M1, M2, M3, M4.
  vm_compute. reflexivity.
Qed.

Lemma catalog90_described : activeRulesAre rules90 catalog90.
Proof.
  split.
  - intros r Hr Ha. simpl in Hr.
    repeat (destruct Hr as [<-|Hr]; [try discriminate Ha|]); try contradiction.
    + split; [discriminate|]. exists ("education_level", "phd", Num.ofZ 3).
      split; [key_listed | repeat split].
    + split; [discriminate|]. exists ("task_type", "essay", Num.ofZ 1).
      split; [key_listed | repeat split].
    + split; [discriminate|]. exists ("urgency", "standard", Num.ofZ 1).
      split; [key_listed | repeat split].
    + split; [discriminate|]. exists ("complexity", "standard", Num.ofZ 1).
      split; [key_listed | repeat split].
  - intros spec Hs. simpl in Hs.
    repeat (destruct Hs as [<-|Hs]); try contradiction.
    + exists (aRule "phd_level" "education_level" "phd" 3 true).
      split; [key_listed | repeat split].
    + exists (aRule "essay_task" "task_type" "essay" 1 true).
      split; [key_listed | repeat split].
    + exists (aRule "standard_urgency" "urgency" "standard" 1 true).
      split; [key_listed | repeat split].
    + exists (aRule "standard_complexity" "complexity" "standard" 1 true).
      split; [key_listed | repeat split].
Qed.

Lemma calculatePrice_phd_essay_90_witness :
  PricingRule.calculatePrice catalog90
    (anOrderData (Some "phd") (Some "essay") (Some "standard") (Some "none")
       (Some (Num.ofZ 2)) 0)
  = Num.ofZ 90.
Proof.
  apply calculatePrice_phd_essay_90.
  - exact catalog90_described.
  - unfold phdEssayTwoPages. simpl. repeat split. right. reflexivity.
Defined.

(** [calculatePrice] as a product over the rules found. *)
Lemma calculatePrice_as_product (rules : list PricingRule.t) (d : OrderData.t) :
  PricingRule.calculatePrice rules d
  = PricingRule.roundCents
      (fold_left Num.mul (foundMultipliers rules d)
         (Num.mul (PricingRule.basePricePerPage rules) (PricingRule.pageCountOf d))).
Proof.
  unfold PricingRule.calculatePrice, foundMultipliers, lookups.
  destruct (PricingRule.findRule rules "education_level" _);
    destruct (PricingRule.findRule rules "task_type" _);
    destruct (PricingRule.findOne (PricingRule.byCategory "urgency" _) _);
    destruct (PricingRule.findOne (PricingRule.byCategory "complexity" _) _);
    destruct (PricingRule.citationRule rules _); reflexivity.
Qed.

Lemma lookups_in_rules rules d o r :
  In o (lookups rules d) -> o = Some r -> In r rules.
Proof.
  unfold lookups, PricingRule.findRule, PricingRule.citationRule.
  intros Hin ->. simpl in Hin.
  destruct Hin as [H|[H|[H|[H|[H|[]]]]]].
  - destruct (OrderData.educationLevel d); [|discriminate].
    now apply findOne_Some in H.
  - destruct (OrderData.taskType d); [|discriminate].
    now apply findOne_Some in H.
  - now apply findOne_Some in H.
  - now apply findOne_Some in H.
  - destruct (OrderData.citationStyle d) as [c|]; [|discriminate].
    destruct (truthyStr c && negb (String.eqb c "none")); [|discriminate].
    now apply findOne_Some in H.
Qed.

Lemma basePricePerPage_canonical rules :
  (forall r, In r rules -> canonical (PricingRule.basePrice r)) ->
  canonical (PricingRule.basePricePerPage rules).
Proof.
  intros H. unfold PricingRule.basePricePerPage.
  destruct (PricingRule.findOne _ rules) as [r|] eqn:E; [|reflexivity].
  apply findOne_Some in E as [Hin _].
  apply orElse_canonical; [now apply H | reflexivity].
Qed.

(** Skipping the steps that found nothing is multiplying by their factor
    1.0. *)
Lemma fold_factors (found : list (option PricingRule.t)) (x : number) :
  canonical x ->
  (forall r, In (Some r) found -> canonical (PricingRule.multiplier r)) ->
  fold_left Num.mul (map PricingRule.multiplier (omap id found)) x
  = fold_left Num.mul (map factor found) x.
Proof.
  revert x. induction found as [|[r|] found IH]; intros x Hx Hall.
  - reflexivity.
  - cbn. apply IH.
    + apply mul_canonical; [exact Hx | apply Hall; now left].
    + intros r' Hr'. apply Hall. now right.
  - cbn [omap map factor fold_left]. rewrite (mul_one_canonical x Hx).
    apply IH; [exact Hx|]. intros r' Hr'. apply Hall. now right.
Qed.

(** C8. A lookup that no active rule matches has the factor exactly 1.0,
    and the price is the base amount multiplied from left to right by the
    factors of the five lookups and rounded to cents; the function is total,
    so a price is returned for every catalog and every order. In the 90.00
    scenario without the task_type rule for "essay" the price is still
    90. *)
Theorem calculatePrice_missing_rule_is_neutral
    (rules : list PricingRule.t) (d : OrderData.t) :
  (forall c a,
      (forall r, In r rules ->
         ~ (PricingRule.category r = c /\ PricingRule.appliesTo r = a
            /\ PricingRule.isActive r = true)) ->
      factor (PricingRule.findOne (PricingRule.byCategory c a) rules) = Num.ofZ 1)
  /\ (canonicalInputs rules d ->
      PricingRule.calculatePrice rules d
      = PricingRule.roundCents
          (fold_left Num.mul (map factor (lookups rules d))
             (Num.mul (PricingRule.basePricePerPage rules)
                (PricingRule.pageCountOf d))))
  /\ (activeRulesAre rules90_without_essay rules ->
      phdEssayTwoPages d ->
      PricingRule.calculatePrice rules d = Num.ofZ 90).
Proof.
  split; [|split].
  - intros c a Hno.
    replace (PricingRule.findOne (PricingRule.byCategory c a) rules)
      with (@None PricingRule.t); [reflexivity|].
    symmetry. apply findOne_None. intros r Hr.
    destruct (PricingRule.byCategory c a r) eqn:E; [|reflexivity].
    apply byCategory_true in E. now apply Hno in E.
  - intros [Hrules Hpages]. rewrite calculatePrice_as_product.
    unfold foundMultipliers. f_equal. apply fold_factors.
    + apply mul_canonical.
      * apply basePricePerPage_canonical. intros r Hr. now apply Hrules.
      * unfold PricingRule.pageCountOf.
        destruct (OrderData.pageCount d) as [n|] eqn:E; [|reflexivity].
        apply orElse_canonical; [now apply Hpages | reflexivity].
    + intros r Hr. apply Hrules.
      now apply (lookups_in_rules rules d (Some r) r).
  - intros Hcat (He & Ht & Hu & Hc & Hs & Hp).
    unfold PricingRule.calculatePrice, PricingRule.pageCountOf.
    rewrite (described_basePricePerPage _ _ Hcat), He, Ht, Hu, Hc, Hp.
    rewrite (citationRule_absent_or_none _ _ Hs). cbn [PricingRule.findRule].
    destruct (described_lookup_Some _ _ Hcat "education_level" "phd" (Num.ofZ 3))
      as (r1 & -> & M1); [key_listed | key_unique |].
    rewrite (described_lookup_None _ _ Hcat "task_type" "essay") by key_absent.
    change (strOr (Some "standard") "standard") with "standard".
    destruct (described_lookup_Some _ _ Hcat "urgency" "standard" (Num.ofZ 1))
      as (r3 & -> & M3); [key_listed | key_unique |].
    destruct (described_lookup_Some _ _ Hcat "complexity" "standard" (Num.ofZ 1))
      as (r4 & -> & M4); [key_listed | key_unique |].
    unfold PricingRule.applyRule. rewrite M1, M3, M4.
    vm_compute. reflexivity.
Qed.

Lemma catalog90_without_essay_described :
  activeRulesAre rules90_without_essay catalog90_without_essay.
Proof.
  split.
  - intros r Hr Ha. simpl in Hr.
    repeat (destruct Hr as [<-|Hr]; [try discriminate Ha|]); try contradiction.
    + split; [discriminate|]. exists ("education_level", "phd", Num.ofZ 3).
      split; [key_listed | repeat split].
    + split; [discriminate|]. exists ("urgency", "standard", Num.ofZ 1).
      split; [key_listed | repeat split].
    + split; [discriminate|]. exists ("complexity", "standard", Num.ofZ 1).
      split; [key_listed | repeat split].
  - intros spec Hs. simpl in Hs.
    repeat (destruct Hs as [<-|Hs]); try contradiction.
    + exists (aRule "phd_level" "education_level" "phd" 3 true).
      split; [key_listed | repeat split].
    + exists (aRule "standard_urgency" "urgency" "standard" 1 true).
      split; [key_listed | repeat split].
    + exists (aRule "standard_complexity" "complexity" "standard" 1 true).
      split; [key_listed | repeat split].
Qed.

Lemma catalog90_without_essay_canonical :
  canonicalInputs catalog90_without_essay phdEssay.
Proof.
  split.
  - intros r Hr. simpl in Hr.
    repeat (destruct Hr as [<-|Hr]; [split; reflexivity|]). contradiction.
  - intros n Hn. injection Hn as <-. reflexivity.
Qed.

Lemma calculatePrice_missing_rule_is_neutral_witness :
  factor (PricingRule.findOne (PricingRule.byCategory "task_type" "essay")
            catalog90_without_essay) = Num.ofZ 1
  /\ PricingRule.calculatePrice catalog90_without_essay phdEssay
     = PricingRule.roundCents
         (fold_left Num.mul
            (map factor (lookups catalog90_without_essay phdEssay))
            (Num.mul (PricingRule.basePricePerPage catalog90_without_essay)
               (PricingRule.pageCountOf phdEssay)))
  /\ PricingRule.calculatePrice catalog90_without_essay phdEssay = Num.ofZ 90.
Proof.
  destruct (calculatePrice_missing_rule_is_neutral catalog90_without_essay
              phdEssay) as (Hone & Hprod & H90).
  split; [|split].
  - apply Hone. intros r Hr (Hc & Ha & Hact). simpl in Hr.
    repeat (destruct Hr as [<-|Hr]; [discriminate|]). contradiction.
  - apply Hprod. exact catalog90_without_essay_canonical.
  - apply H90.
    + exact catalog90_without_essay_described.
    + unfold phdEssayTwoPages. simpl. repeat split. left. reflexivity.
Defined.

(** C10. When the active rule named "base_price_per_page" has a
    [basePrice] of 0, the rate per page is the default 15, and the price is
    the one computed from 15 per page; and whatever the catalog, the rate
    per page that [calculatePrice] multiplies by the page count is never
    zero. *)
Theorem basePricePerPage_zero_falls_back (rules : list PricingRule.t) :
  (forall baseRule,
     PricingRule.findOne (PricingRule.byName "base_price_per_page") rules
       = Some baseRule ->
     Num.isZero (PricingRule.basePrice baseRule) = true ->
     PricingRule.basePricePerPage rules = Num.ofZ 15
     /\ forall d,
          PricingRule.calculatePrice rules d
          = PricingRule.roundCents
              (fold_left Num.mul (foundMultipliers rules d)
                 (Num.mul (Num.ofZ 15) (PricingRule.pageCountOf d))))
  /\ Num.isZero (PricingRule.basePricePerPage rules) = false.
Proof.
  split.
  - intros baseRule Hf Hz.
    assert (H15 : PricingRule.basePricePerPage rules = Num.ofZ 15).
    { unfold PricingRule.basePricePerPage, Num.orElse. rewrite Hf.
      destruct (PricingRule.basePrice baseRule); try discriminate Hz.
      reflexivity. }
    split; [exact H15|]. intros d.
    rewrite calculatePrice_as_product, H15. reflexivity.
  - unfold PricingRule.basePricePerPage, Num.orElse.
    destruct (PricingRule.findOne _ rules) as [r|]; [|reflexivity].
    destruct (PricingRule.basePrice r); reflexivity.
Qed.

Lemma basePricePerPage_zero_falls_back_witness :
  PricingRule.basePricePerPage [zeroBaseRule] = Num.ofZ 15
  /\ PricingRule.calculatePrice [zeroBaseRule]
       (anOrderData (Some "phd") (Some "essay") None None (Some (Num.ofZ 2)) 0)
     = Num.ofZ 30.
Proof.
  destruct (proj1 (basePricePerPage_zero_falls_back [zeroBaseRule])
              zeroBaseRule eq_refl eq_refl) as [H15 Hprice].
  split; [exact H15|]. rewrite Hprice. vm_compute. reflexivity.
Defined.

(** * Properties of order creation *)

Section Creation.

Variable env : Env.
Variable orders : gmap string Order.t.
Variable orderData : OrderData.t.

(** How the loop ends, by induction on what remains of the three
    attempts. *)
Lemma createLoop_ends (remaining attempts : nat) :
  match createLoop remaining attempts env orders orderData with
  | Created order orders' k =>
      (attempts <= k < attempts + remaining)%nat
      /\ (forall j, (attempts <= j < k)%nat -> collides env orders orderData j)
      /\ attempt env orders orderData k = inr (order, orders')
  | Thrown err k =>
      (attempts <= k < attempts + remaining)%nat
      /\ (forall j, (attempts <= j < k)%nat -> collides env orders orderData j)
      /\ attempt env orders orderData k = inl err
      /\ isOrderNumberCollision err = false
  | NoOrder k =>
      k = (attempts + remaining)%nat
      /\ (forall j, (attempts <= j < k)%nat -> collides env orders orderData j)
  end.
Proof.
  revert attempts. induction remaining as [|n IH]; intros attempts; simpl.
  - split; [lia|]. intros j Hj. lia.
  - fold (attempt env orders orderData attempts).
    destruct (attempt env orders orderData attempts)
      as [err|[order orders']] eqn:E.
    + destruct (isOrderNumberCollision err) eqn:C.
      * specialize (IH (S attempts)).
        assert (Hstep : forall k,
                   (forall j, (S attempts <= j < k)%nat ->
                      collides env orders orderData j) ->
                   forall j, (attempts <= j < k)%nat ->
                     collides env orders orderData j).
        { intros k H j Hj. destruct (Nat.eq_dec j attempts) as [->|Hne].
          - exists err. auto.
          - apply H. lia. }
        destruct (createLoop n (S attempts) env orders orderData)
          as [o os k|k|e k].
        -- destruct IH as (Hk & Hc & Ha).
           split; [lia|]. split; [now apply Hstep | exact Ha].
        -- destruct IH as (Hk & Hc). split; [lia | now apply Hstep].
        -- destruct IH as (Hk & Hc & Ha & Hn).
           split; [lia|]. split; [now apply Hstep | auto].
      * split; [lia|]. split; [intros j Hj; lia | auto].
    + split; [lia|]. split; [intros j Hj; lia | exact E].
Qed.

(** A call that succeeds stores exactly the new document, under an [_id]
    that was free. *)
Lemma create_inserts (k : nat) order orders' :
  attempt env orders orderData k = inr (order, orders') ->
  orders !! Order.newId (draws env k) = None
  /\ orders' = <[Order.newId (draws env k) := order]> orders
  /\ Order.orderNumberTaken (Order.orderNumber order) orders = false.
Proof.
  unfold attempt, Order.create.
  destruct (Order.fault (draws env k)); [discriminate|].
  destruct (Order.orderNumberTaken _ orders) eqn:T; [discriminate|].
  destruct (orders !! Order.newId (draws env k)) eqn:L; [discriminate|].
  intros H. injection H as <- <-. auto.
Qed.

End Creation.


Lemma orders1_lookup : orders1 !! "65a001" = Some order1.
Proof. vm_compute. reflexivity. Qed.



(** * Urgency and price at creation *)

(** The urgency stored on a created order is the one derived from the
    deadline, whatever the body said. *)
Lemma createOrder_stores_derived_urgency
    (env : Env) (rules : list PricingRule.t) (orders orders' : gmap string Order.t)
    (user : User.t) (body : OrderData.t) (order : Order.t) :
  createOrder env rules orders user body = (Response.send 201 order, orders') ->
  Order.urgency order = deriveUrgency (OrderData.deadline body) (now env).
Proof.
  unfold createOrder.
  pose proof (createLoop_ends env orders (prepareOrderData env rules user body) 3 0) as H.
  destruct (createLoop 3 0 env orders _) as [o os k|k|e k]; try discriminate.
  destruct H as (_ & _ & Ha). intros E. injection E as <- <-.
  unfold attempt, Order.create in Ha.
  destruct (Order.fault _); [discriminate|].
  destruct (Order.orderNumberTaken _ _); [discriminate|].
  destruct (orders !! _); [discriminate|].
  injection Ha as <- _. reflexivity.
Qed.

(** The price stored on a created order is computed from [orderData] as it
    is before the urgency is derived: with the urgency of the body. *)
Lemma createOrder_prices_with_body_urgency
    (env : Env) (rules : list PricingRule.t) (orders orders' : gmap string Order.t)
    (user : User.t) (body : OrderData.t) (order : Order.t) :
  createOrder env rules orders user body = (Response.send 201 order, orders') ->
  Order.totalPrice order
  = Some (PricingRule.calculatePrice rules
            (OrderData.set_student (User._id user) body)).
Proof.
  unfold createOrder.
  pose proof (createLoop_ends env orders (prepareOrderData env rules user body) 3 0) as H.
  destruct (createLoop 3 0 env orders _) as [o os k|k|e k]; try discriminate.
  destruct H as (_ & _ & Ha). intros E. injection E as <- <-.
  unfold attempt, Order.create in Ha.
  destruct (Order.fault _); [discriminate|].
  destruct (Order.orderNumberTaken _ _); [discriminate|].
  destruct (orders !! _); [discriminate|].
  injection Ha as <- _. reflexivity.
Qed.

(** The thresholds of the derivation, at the clock [now0]. *)
Lemma deriveUrgency_boundaries :
  deriveUrgency (now0 + hour) now0 = "urgent"
  /\ deriveUrgency (now0 + 24 * hour) now0 = "urgent"
  /\ deriveUrgency (now0 + 24 * hour + 1000) now0 = "rush"
  /\ deriveUrgency (now0 + 72 * hour) now0 = "rush"
  /\ deriveUrgency (now0 + 72 * hour + 1000) now0 = "standard".
Proof. vm_compute. repeat split. Qed.


(** * Properties of the order lifecycle *)

Lemma save_resolves env orders id order msg :
  saveOk env = true ->
  save env orders id order msg = (Response.send 200 order, <[id := order]> orders).
Proof. intros H. unfold save. now rewrite H. Qed.

Lemma Status_eqb_eq a b : Status.eqb a b = true <-> a = b.
Proof. destruct a, b; simpl; split; intros H; auto; discriminate. Qed.

Lemma Status_eqb_neq a b : Status.eqb a b = false <-> a <> b.
Proof.
  destruct a, b; simpl; split; intros H; auto; try discriminate;
    contradiction.
Qed.

(** C6, as the code has it. On a stored order, [cancelOrder] is answered 403
    for every caller who is not the owner, administrators included; for the
    owner it is answered 400 when the order is completed or cancelled, and
    otherwise (the write resolving) it sets the status to cancelled and
    appends one entry to the history. A refusal stores nothing. *)
Theorem cancelOrder_owner_only
    (env : Env) (orders : gmap string Order.t) (user : User.t) (id : string)
    (body : Body.t) (order : Order.t) :
  orders !! id = Some order ->
  (isOwner order user = false ->
     cancelOrder env orders user id body
     = (Response.fail 403 "Not authorized to cancel this order", orders))
  /\ (isOwner order user = true ->
      Status.terminal (Order.status order) = true ->
      cancelOrder env orders user id body
      = (Response.fail 400 "This order cannot be cancelled", orders))
  /\ (isOwner order user = true ->
      Status.terminal (Order.status order) = false ->
      saveOk env = true ->
      exists order',
        cancelOrder env orders user id body
        = (Response.send 200 order', <[id := order']> orders)
        /\ Order.status order' = Status.cancelled
        /\ Order.statusHistory order'
           = (Order.statusHistory order
              ++ [Entry.mk Status.cancelled (now env)
                    (strOr (Body.reason body) "Cancelled by student")])%list).
Proof.
  intros Hl. unfold cancelOrder. rewrite Hl. repeat split.
  - intros ->. reflexivity.
  - intros -> ->. reflexivity.
  - intros -> -> Hs. simpl. rewrite (save_resolves _ _ _ _ _ Hs).
    eexists. repeat split.
Qed.

Lemma cancelOrder_owner_only_witness :
  cancelOrder env0 orders1 admin1 "65a001" noBody
  = (Response.fail 403 "Not authorized to cancel this order", orders1)
  /\ exists order',
       cancelOrder env0 orders1 student1 "65a001" noBody
       = (Response.send 200 order', <["65a001" := order']> orders1)
       /\ Order.status order' = Status.cancelled
       /\ Order.statusHistory order'
          = (Order.statusHistory order1
             ++ [Entry.mk Status.cancelled now0 "Cancelled by student"])%list.
Proof.
  split.
  - apply (proj1 (cancelOrder_owner_only env0 orders1 admin1 "65a001" noBody
                    order1 orders1_lookup)).
    reflexivity.
  - apply (proj2 (proj2 (cancelOrder_owner_only env0 orders1 student1 "65a001"
                           noBody order1 orders1_lookup))); reflexivity.
Defined.

(** C6, counterexample. An administrator who is not the owner cancels a
    pending order: the request is refused with 403 and the order stays
    pending. *)
Lemma cancelOrder_refuses_administrator :
  isAdmin admin1 = true
  /\ (Order.status <$> orders1 !! "65a001") = Some Status.pending
  /\ (cancelOrder env0 orders1 admin1 "65a001" noBody).1
     = Response.fail 403 "Not authorized to cancel this order"
  /\ (cancelOrder env0 orders1 admin1 "65a001" noBody).2 = orders1.
Proof. vm_compute. repeat split. Qed.

Lemma ordersDone_lookup : ordersDone !! "65a001" = Some orderDone.
Proof. vm_compute. reflexivity. Qed.

(** C1, as the code has it. For a stored order that is completed or
    cancelled: [cancelOrder] is refused for every caller, with 400 for the
    owner and 403 for anyone else; [updateOrder] by a caller who is not an
    administrator is refused whenever the body carries a status, with 400
    for the owner asking to cancel and 403 otherwise, and never changes the
    status or the history of the order. No refusal stores anything. The
    administrator's branch of [updateOrder] has no such lock: a status other
    than the current one is stored and appended to the history. *)
Theorem terminal_order_locked_for_non_admin
    (env : Env) (orders : gmap string Order.t) (user : User.t) (id : string)
    (body : Body.t) (order : Order.t) :
  orders !! id = Some order ->
  Status.terminal (Order.status order) = true ->
  (exists code msg,
      cancelOrder env orders user id body = (Response.fail code msg, orders)
      /\ code = (if isOwner order user then 400 else 403))
  /\ (isAdmin user = false ->
      forall s, Body.status body = Some s ->
      exists code msg,
        updateOrder env orders user id body = (Response.fail code msg, orders)
        /\ code = (if isOwner order user && Status.eqb s Status.cancelled
                   then 400 else 403))
  /\ (isAdmin user = false ->
      exists order',
        (updateOrder env orders user id body).2 !! id = Some order'
        /\ Order.status order' = Order.status order
        /\ Order.statusHistory order' = Order.statusHistory order)
  /\ (isAdmin user = true ->
      saveOk env = true ->
      forall s, Body.status body = Some s -> s <> Order.status order ->
      exists order',
        updateOrder env orders user id body
        = (Response.send 200 order', <[id := order']> orders)
        /\ Order.status order' = s
        /\ Order.statusHistory order'
           = (Order.statusHistory order
              ++ [Entry.mk s (now env)
                    (strOr (Body.statusNote body) "Status updated by admin")])%list).
Proof.
  intros Hl Ht. repeat split.
  - unfold cancelOrder. rewrite Hl, Ht.
    destruct (isOwner order user); simpl; eauto.
  - intros Ha s Hs. unfold updateOrder, statusOtherThanCancelled, asksCancel.
    rewrite Hl, Ha, Hs, Ht.
    destruct (isOwner order user); simpl; [|eauto].
    destruct (Status.eqb s Status.cancelled); simpl; eauto.
  - intros Ha. unfold updateOrder, statusOtherThanCancelled, asksCancel.
    rewrite Hl, Ha.
    destruct (isOwner order user); simpl; [|eauto].
    destruct (Body.status body) as [s|] eqn:Hs.
    + destruct (Status.eqb s Status.cancelled); simpl; [rewrite Ht|]; simpl; eauto.
    + simpl. unfold save, ownerChanges, asksCancel. rewrite Hs.
      destruct (saveOk env); simpl; [|eauto].
      rewrite lookup_insert_eq. eexists. split; [reflexivity|].
      destruct (Body.additionalInstructions body) as [a|]; [|auto].
      destruct (truthyStr a); auto.
  - intros Ha Hok s Hs Hne. unfold updateOrder. rewrite Hl, Ha.
    rewrite !andb_false_r. rewrite (save_resolves _ _ _ _ _ Hok).
    eexists. split; [reflexivity|].
    apply Status_eqb_neq in Hne. unfold adminChanges. rewrite Hs, Hne. simpl.
    destruct (Body.adminNotes body); destruct (Body.progress body); auto.
Qed.

Lemma terminal_order_locked_for_non_admin_witness :
  (exists code msg,
      updateOrder env0 ordersDone student1 "65a001" (statusBody Status.cancelled)
      = (Response.fail code msg, ordersDone)
      /\ code = 400)
  /\ exists code msg,
       cancelOrder env0 ordersDone student1 "65a001" noBody
       = (Response.fail code msg, ordersDone)
       /\ code = 400.
Proof.
  pose proof (terminal_order_locked_for_non_admin env0 ordersDone student1
                "65a001" (statusBody Status.cancelled) orderDone
                ordersDone_lookup eq_refl) as (_ & Hu & _).
  pose proof (terminal_order_locked_for_non_admin env0 ordersDone student1
                "65a001" noBody orderDone
                ordersDone_lookup eq_refl) as (Hc & _).
  split.
  - exact (Hu eq_refl Status.cancelled eq_refl).
  - exact Hc.
Defined.

(** C1, counterexample. An administrator sets a completed order back to
    pending: the request succeeds, the status changes and the history
    grows. *)
Lemma administrator_reopens_completed_order :
  (Order.status <$> ordersDone !! "65a001") = Some Status.completed
  /\ exists order',
       updateOrder env0 ordersDone admin1 "65a001" (statusBody Status.pending)
       = (Response.send 200 order', <["65a001" := order']> ordersDone)
       /\ Order.status order' = Status.pending
       /\ length (Order.statusHistory order')
          = S (length (Order.statusHistory orderDone)).
Proof.
  split; [vm_compute; reflexivity|].
  eexists. split; [vm_compute; reflexivity|]. split; reflexivity.
Qed.








(** ** The history invariant *)

Lemma historyOk_push status now note o :
  historyOk (Order.push_statusHistory (Entry.mk status now note)
               (Order.set_status status o)).
Proof. eexists. split; [apply last_snoc | reflexivity]. Qed.

Lemma historyOk_preSave now generated o :
  historyOk (Order.preSave now generated o).
Proof. eexists. split; [apply last_snoc | reflexivity]. Qed.

Lemma historyOk_ownerChanges env body o :
  historyOk o -> historyOk (ownerChanges env body o).
Proof.
  intros H. unfold ownerChanges.
  assert (H' : historyOk
            (if asksCancel body
             then cancelWith (now env) "Cancelled by student" o else o)).
  { destruct (asksCancel body); [apply historyOk_push | exact H]. }
  destruct (Body.additionalInstructions body) as [a|]; [|exact H'].
  destruct (truthyStr a); exact H'.
Qed.

Lemma historyOk_adminChanges env body o :
  historyOk o -> historyOk (adminChanges env body o).
Proof.
  intros H. unfold adminChanges.
  set (o1 := match Body.status body with Some _ => _ | None => _ end).
  assert (H1 : historyOk o1).
  { unfold o1. destruct (Body.status body) as [s|]; [|exact H].
    destruct (negb _); [apply historyOk_push | exact H]. }
  destruct (Body.adminNotes body); destruct (Body.progress body); exact H1.
Qed.

Lemma historyOk_save env orders id order msg :
  map_Forall (fun _ o => historyOk o) orders ->
  historyOk order ->
  map_Forall (fun _ o => historyOk o) (save env orders id order msg).2.
Proof.
  intros Hall Ho. unfold save. destruct (saveOk env); simpl; [|exact Hall].
  now apply map_Forall_insert_2.
Qed.

(** Every handler keeps the invariant. *)
Lemma createOrder_historyOk env rules orders user body :
  map_Forall (fun _ o => historyOk o) orders ->
  map_Forall (fun _ o => historyOk o) (createOrder env rules orders user body).2.
Proof.
  intros Hall. unfold createOrder.
  pose proof (createLoop_ends env orders (prepareOrderData env rules user body) 3 0) as H.
  destruct (createLoop 3 0 env orders _) as [o os k|k|e k]; simpl; auto.
  destruct H as (_ & _ & Ha).
  destruct (create_inserts _ _ _ _ _ _ Ha) as (_ & -> & _).
  apply map_Forall_insert_2; [|exact Hall].
  unfold attempt, Order.create in Ha.
  destruct (Order.fault _); [discriminate|].
  destruct (Order.orderNumberTaken _ _); [discriminate|].
  destruct (orders !! _); [discriminate|].
  injection Ha as <- _. apply historyOk_preSave.
Qed.

Lemma updateOrder_historyOk env orders user id body :
  map_Forall (fun _ o => historyOk o) orders ->
  map_Forall (fun _ o => historyOk o) (updateOrder env orders user id body).2.
Proof.
  intros Hall. unfold updateOrder.
  destruct (orders !! id) as [order|] eqn:Hl; [|exact Hall].
  pose proof (Hall _ _ Hl) as Ho. simpl in Ho.
  destruct (negb (isOwner order user) && negb (isAdmin user)); [exact Hall|].
  destruct (isOwner order user && negb (isAdmin user)).
  - destruct (statusOtherThanCancelled body); [exact Hall|].
    destruct (asksCancel body && Status.terminal (Order.status order));
      [exact Hall|].
    apply historyOk_save; [exact Hall | now apply historyOk_ownerChanges].
  - apply historyOk_save; [exact Hall | now apply historyOk_adminChanges].
Qed.

Lemma cancelOrder_historyOk env orders user id body :
  map_Forall (fun _ o => historyOk o) orders ->
  map_Forall (fun _ o => historyOk o) (cancelOrder env orders user id body).2.
Proof.
  intros Hall. unfold cancelOrder.
  destruct (orders !! id) as [order|] eqn:Hl; [|exact Hall].
  destruct (negb (isOwner order user)); [exact Hall|].
  destruct (Status.terminal (Order.status order)); [exact Hall|].
  apply historyOk_save; [exact Hall | apply historyOk_push].
Qed.

Lemma reviewOrder_historyOk env orders user id body :
  map_Forall (fun _ o => historyOk o) orders ->
  map_Forall (fun _ o => historyOk o) (reviewOrder env orders user id body).2.
Proof.
  intros Hall. unfold reviewOrder.
  destruct (orders !! id) as [order|] eqn:Hl; [|exact Hall].
  pose proof (Hall _ _ Hl) as Ho. simpl in Ho.
  destruct (negb (isOwner order user)); [exact Hall|].
  destruct (negb (Status.eqb (Order.status order) Status.completed));
    [exact Hall|].
  destruct (Order.rating order); [exact Hall|].
  apply historyOk_save; [exact Hall | exact Ho].
Qed.

Lemma reachable_historyOk orders :
  reachable orders -> map_Forall (fun _ o => historyOk o) orders.
Proof.
  induction 1.
  - apply map_Forall_empty.
  - now apply createOrder_historyOk.
  - now apply updateOrder_historyOk.
  - now apply cancelOrder_historyOk.
  - now apply reviewOrder_historyOk.
Qed.

(** C9. In every collection that requests can build, every order has a
    non-empty history whose last entry carries the current status. An
    administrator's update that names the current status is accepted and
    leaves the history as it is; one that names another status appends
    exactly one entry, for that status. *)
Theorem statusHistory_follows_status :
  (forall orders id order,
      reachable orders -> orders !! id = Some order -> historyOk order)
  /\ (forall env orders user id body order,
        orders !! id = Some order ->
        isAdmin user = true ->
        saveOk env = true ->
        Body.status body = Some (Order.status order) ->
        exists order',
          updateOrder env orders user id body
          = (Response.send 200 order', <[id := order']> orders)
          /\ Order.status order' = Order.status order
          /\ Order.statusHistory order' = Order.statusHistory order)
  /\ (forall env orders user id body order s,
        orders !! id = Some order ->
        isAdmin user = true ->
        saveOk env = true ->
        Body.status body = Some s ->
        s <> Order.status order ->
        exists order' entry,
          updateOrder env orders user id body
          = (Response.send 200 order', <[id := order']> orders)
          /\ Order.status order' = s
          /\ Entry.status entry = s
          /\ Order.statusHistory order'
             = (Order.statusHistory order ++ [entry])%list).
Proof.
  split; [|split].
  - intros orders id order Hr Hl. exact (reachable_historyOk _ Hr _ _ Hl).
  - intros env orders user id body order Hl Ha Hok Hs.
    unfold updateOrder. rewrite Hl, Ha, !andb_false_r.
    rewrite (save_resolves _ _ _ _ _ Hok). eexists. split; [reflexivity|].
    unfold adminChanges. rewrite Hs.
    replace (Status.eqb (Order.status order) (Order.status order)) with true
      by (symmetry; now apply Status_eqb_eq).
    simpl. destruct (Body.adminNotes body); destruct (Body.progress body); auto.
  - intros env orders user id body order s Hl Ha Hok Hs Hne.
    unfold updateOrder. rewrite Hl, Ha, !andb_false_r.
    rewrite (save_resolves _ _ _ _ _ Hok). eexists. eexists.
    split; [reflexivity|].
    apply Status_eqb_neq in Hne. unfold adminChanges. rewrite Hs, Hne. simpl.
    destruct (Body.adminNotes body); destruct (Body.progress body);
      repeat split; reflexivity.
Qed.

Lemma statusHistory_follows_status_witness :
  historyOk orderDone
  /\ exists order',
       updateOrder env0 orders1 admin1 "65a001" (statusBody Status.pending)
       = (Response.send 200 order', <["65a001" := order']> orders1)
       /\ Order.status order' = Order.status order1
       /\ Order.statusHistory order' = Order.statusHistory order1.
Proof.
  destruct statusHistory_follows_status as (Hinv & Hsame & _).
  split.
  - apply (Hinv ordersDone "65a001" orderDone); [|exact ordersDone_lookup].
    unfold ordersDone, orders1. apply reach_update, reach_create, reach_empty.
  - apply (Hsame env0 orders1 admin1 "65a001" (statusBody Status.pending) order1);
      [exact orders1_lookup | reflexivity..].
Defined.

(** * What the handlers keep *)

Lemma lifecycleChange_refl order : lifecycleChange order order.
Proof. repeat split; [reflexivity | lia]. Qed.

Lemma lifecycleChange_push entry status order :
  lifecycleChange order
    (Order.push_statusHistory entry (Order.set_status status order)).
Proof.
  repeat split.
  - cbn. now apply prefix_app_r.
  - cbn. rewrite length_app. cbn. lia.
Qed.

Lemma lifecycleChange_ownerChanges env body order :
  lifecycleChange order (ownerChanges env body order).
Proof.
  unfold ownerChanges.
  set (o1 := if asksCancel body then _ else order).
  assert (H1 : lifecycleChange order o1).
  { unfold o1. destruct (asksCancel body);
      [apply lifecycleChange_push | apply lifecycleChange_refl]. }
  destruct H1 as (F & P & L).
  destruct (Body.additionalInstructions body) as [a|];
    [destruct (truthyStr a)|]; repeat split; assumption.
Qed.

Lemma lifecycleChange_adminChanges env body order :
  lifecycleChange order (adminChanges env body order).
Proof.
  unfold adminChanges.
  set (o1 := match Body.status body with Some _ => _ | None => _ end).
  assert (H1 : lifecycleChange order o1).
  { unfold o1. destruct (Body.status body) as [s|];
      [|apply lifecycleChange_refl].
    destruct (negb _); [apply lifecycleChange_push | apply lifecycleChange_refl]. }
  destruct H1 as (F & P & L).
  destruct (Body.adminNotes body); destruct (Body.progress body);
    repeat split; assumption.
Qed.

Lemma lifecycleChange_reviewed env body order :
  lifecycleChange order (reviewed env body order).
Proof. repeat split; [reflexivity | cbn; lia]. Qed.

(** The collection after a request that addresses a stored order: as
    before, or with that order replaced by a lifecycle change of it. *)
Lemma save_store env orders id order order' msg :
  lifecycleChange order order' ->
  (save env orders id order' msg).2 = orders
  \/ exists o', (save env orders id order' msg).2 = <[id := o']> orders
                /\ lifecycleChange order o'.
Proof.
  intros H. unfold save. destruct (saveOk env); cbn; eauto.
Qed.

Lemma updateOrder_store env orders user id body :
  (updateOrder env orders user id body).2 = orders
  \/ exists order order',
       orders !! id = Some order
       /\ (updateOrder env orders user id body).2 = <[id := order']> orders
       /\ lifecycleChange order order'.
Proof.
  unfold updateOrder. destruct (orders !! id) as [order|] eqn:Hl; [|now left].
  destruct (negb (isOwner order user) && negb (isAdmin user)); [now left|].
  destruct (isOwner order user && negb (isAdmin user)).
  - destruct (statusOtherThanCancelled body); [now left|].
    destruct (asksCancel body && Status.terminal (Order.status order));
      [now left|].
    destruct (save_store env orders id order (ownerChanges env body order)
                "Server error updating order"
                (lifecycleChange_ownerChanges env body order))
      as [H|(o' & H & Hc)]; [now left | right; eauto].
  - destruct (save_store env orders id order (adminChanges env body order)
                "Server error updating order"
                (lifecycleChange_adminChanges env body order))
      as [H|(o' & H & Hc)]; [now left | right; eauto].
Qed.

Lemma cancelOrder_store env orders user id body :
  (cancelOrder env orders user id body).2 = orders
  \/ exists order order',
       orders !! id = Some order
       /\ (cancelOrder env orders user id body).2 = <[id := order']> orders
       /\ lifecycleChange order order'.
Proof.
  unfold cancelOrder. destruct (orders !! id) as [order|] eqn:Hl; [|now left].
  destruct (negb (isOwner order user)); [now left|].
  destruct (Status.terminal (Order.status order)); [now left|].
  destruct (save_store env orders id order
              (cancelWith (now env)
                 (strOr (Body.reason body) "Cancelled by student") order)
              "Server error cancelling order"
              (lifecycleChange_push _ _ _))
    as [H|(o' & H & Hc)]; [now left | right; eauto].
Qed.

Lemma reviewOrder_store env orders user id body :
  (reviewOrder env orders user id body).2 = orders
  \/ exists order order',
       orders !! id = Some order
       /\ (reviewOrder env orders user id body).2 = <[id := order']> orders
       /\ lifecycleChange order order'.
Proof.
  unfold reviewOrder. destruct (orders !! id) as [order|] eqn:Hl; [|now left].
  destruct (negb (isOwner order user)); [now left|].
  destruct (negb (Status.eqb (Order.status order) Status.completed));
    [now left|].
  destruct (Order.rating order); [now left|].
  destruct (save_store env orders id order (reviewed env body order)
              "Server error submitting review"
              (lifecycleChange_reviewed env body order))
    as [H|(o' & H & Hc)]; [now left | right; eauto].
Qed.

(** The collection after [createOrder]: as before, or with one order more,
    under a free [_id] and with an order number that was not taken. *)
Lemma createOrder_store env rules orders user body :
  (createOrder env rules orders user body).2 = orders
  \/ exists id order,
       orders !! id = None
       /\ (createOrder env rules orders user body).2 = <[id := order]> orders
       /\ Order.orderNumberTaken (Order.orderNumber order) orders = false.
Proof.
  unfold createOrder.
  pose proof (createLoop_ends env orders
                (prepareOrderData env rules user body) 3 0) as H.
  destruct (createLoop 3 0 env orders _) as [o os k|k|e k]; cbn; auto.
  destruct H as (_ & _ & Ha).
  destruct (create_inserts _ _ _ _ _ _ Ha) as (Hfree & -> & Ht).
  right. eauto.
Qed.

(** X1. Whatever the request, an order that is stored stays stored, with
    the same owner, order number, attributes, deadline, urgency and prices,
    and with a history that has its previous history as a prefix and at
    most one entry more. *)
Theorem stored_order_kept
    (env : Env) (orders : gmap string Order.t) (r : Request)
    (id : string) (order : Order.t) :
  orders !! id = Some order ->
  exists order',
    (handle env orders r).2 !! id = Some order'
    /\ fixedPaths order' = fixedPaths order
    /\ Order.statusHistory order `prefix_of` Order.statusHistory order'
    /\ (length (Order.statusHistory order')
        <= S (length (Order.statusHistory order)))%nat.
Proof.
  intros Hl.
  change (exists order', (handle env orders r).2 !! id = Some order'
                         /\ lifecycleChange order order').
  assert (Hsame : forall orders',
            orders' = orders ->
            exists order', orders' !! id = Some order'
                           /\ lifecycleChange order order').
  { intros ? ->. exists order. split; [exact Hl | apply lifecycleChange_refl]. }
  assert (Hrep : forall orders' id0 o0 o0',
            orders !! id0 = Some o0 -> orders' = <[id0 := o0']> orders ->
            lifecycleChange o0 o0' ->
            exists order', orders' !! id = Some order'
                           /\ lifecycleChange order order').
  { intros ? id0 o0 o0' H0 -> Hc. destruct (decide (id0 = id)) as [->|Hne].
    - rewrite lookup_insert_eq. exists o0'. split; [reflexivity|].
      rewrite Hl in H0. injection H0 as <-. exact Hc.
    - rewrite lookup_insert_ne by exact Hne.
      exists order. split; [exact Hl | apply lifecycleChange_refl]. }
  destruct r as [rules user body|user id0 body|user id0 body|user id0 body];
    cbn [handle].
  - destruct (createOrder_store env rules orders user body)
      as [H|(id0 & o0 & Hfree & H & _)]; [now apply Hsame|].
    rewrite H. assert (id0 <> id) by congruence.
    rewrite lookup_insert_ne by assumption.
    exists order. split; [exact Hl | apply lifecycleChange_refl].
  - destruct (updateOrder_store env orders user id0 body)
      as [H|(o0 & o0' & H0 & H & Hc)];
      [now apply Hsame | now apply Hrep with id0 o0 o0'].
  - destruct (cancelOrder_store env orders user id0 body)
      as [H|(o0 & o0' & H0 & H & Hc)];
      [now apply Hsame | now apply Hrep with id0 o0 o0'].
  - destruct (reviewOrder_store env orders user id0 body)
      as [H|(o0 & o0' & H0 & H & Hc)];
      [now apply Hsame | now apply Hrep with id0 o0 o0'].
Qed.

Lemma stored_order_kept_witness :
  exists order',
    (handle env0 orders1 (Cancel student1 "65a001" noBody)).2 !! "65a001"
    = Some order'
    /\ fixedPaths order' = fixedPaths order1
    /\ Order.statusHistory order1 `prefix_of` Order.statusHistory order'
    /\ (length (Order.statusHistory order')
        <= S (length (Order.statusHistory order1)))%nat.
Proof.
  exact (stored_order_kept env0 orders1 (Cancel student1 "65a001" noBody)
           "65a001" order1 orders1_lookup).
Defined.









(** The comparison of two doubles, read the other way round. *)
Lemma SFcompare_antisym (x y : spec_float) (c : comparison) :
  SFcompare x y = Some c -> SFcompare y x = Some (CompOpp c).
Proof.
  destruct x as [sx|sx| |sx mx ex], y as [sy|sy| |sy my ey]; cbn;
    try discriminate;
    try (intros H; injection H as <-; try destruct sx; try destruct sy;
         reflexivity).
  intros H. injection H as <-. f_equal.
  destruct sx, sy; try reflexivity.
  - rewrite (Z.compare_antisym ex ey).
    destruct (ex ?= ey); cbn; try reflexivity.
    rewrite (Pos.compare_cont_antisym mx my Eq). cbn.
    now destruct (Pos.compare_cont Eq mx my).
  - rewrite (Z.compare_antisym ex ey).
    destruct (ex ?= ey); cbn; try reflexivity.
    now rewrite (Pos.compare_cont_antisym mx my Eq).
Qed.

(** [Math.max(0, Math.min(100, progress))] *)
Lemma clamp_in_range (p : number) :
  isNaN p = false ->
  let c := Num.max (Num.ofZ 0) (Num.min (Num.ofZ 100) p) in
  Num.leb (Num.ofZ 0) c = true /\ Num.leb c (Num.ofZ 100) = true.
Proof.
  intros Hp. cbn zeta. unfold Num.min.
  destruct (SFcompare (Num.ofZ 100) p) as [[| |]|] eqn:C100.
  - change (match Num.ofZ 100 with S754_zero _ => _ | _ => Num.ofZ 100 end)
      with (Num.ofZ 100). vm_compute. auto.
  - vm_compute. auto.
  - destruct p as [s|s| |s m e]; try discriminate Hp.
    + destruct s; vm_compute; auto.
    + destruct s; [vm_compute; auto | discriminate C100].
    + destruct s; [vm_compute; auto|].
      apply SFcompare_antisym in C100. cbn [CompOpp] in C100.
      split.
      * reflexivity.
      * unfold Num.max.
        change (SFcompare (Num.ofZ 0) (S754_finite false m e)) with (Some Lt).
        cbn iota. unfold Num.leb, SFleb. now rewrite C100.
  - destruct p; try discriminate; discriminate Hp.
Qed.

(** X4. An administrator's update that is accepted with a [progress] other
    than [NaN] stores a progress between 0 and 100. *)
Theorem admin_progress_clamped
    (env : Env) (orders orders' : gmap string Order.t) (user : User.t)
    (id : string) (body : Body.t) (p : number) (order' : Order.t) :
  isAdmin user = true ->
  Body.progress body = Some p ->
  isNaN p = false ->
  updateOrder env orders user id body = (Response.send 200 order', orders') ->
  orders' !! id = Some order'
  /\ Num.leb (Num.ofZ 0) (Order.progress order') = true
  /\ Num.leb (Order.progress order') (Num.ofZ 100) = true.
Proof.
  intros Ha Hp Hn. unfold updateOrder.
  destruct (orders !! id) as [order|]; [|discriminate].
  rewrite Ha, !andb_false_r. unfold save.
  destruct (saveOk env); [|discriminate].
  intros H. injection H as <- <-. split; [apply lookup_insert_eq|].
  unfold adminChanges. rewrite Hp.
  change (Order.progress (Order.set_progress ?v ?o)) with v.
  now apply clamp_in_range.
Qed.

Lemma admin_progress_clamped_witness :
  (updateOrder env0 orders1 admin1 "65a001" progressBody).2 !! "65a001"
  = Some (adminChanges env0 progressBody order1)
  /\ Num.leb (Num.ofZ 0)
       (Order.progress (adminChanges env0 progressBody order1)) = true
  /\ Num.leb (Order.progress (adminChanges env0 progressBody order1))
       (Num.ofZ 100) = true.
Proof.
  apply (admin_progress_clamped env0 orders1 _ admin1 "65a001" progressBody
           (Num.ofZ 50));
    [reflexivity | reflexivity | reflexivity | vm_compute; reflexivity].
Defined.

(** X5. For the owner who is not an administrator, cancelling through
    [updateOrder] (status "cancelled", no additional instructions) and
    through [cancelOrder] (no reason) store the same collection whenever
    the order can still be cancelled, and give the same answer when the
    write resolves. *)
Theorem owner_cancel_paths_agree
    (env : Env) (orders : gmap string Order.t) (user : User.t) (id : string)
    (update cancel : Body.t) (order : Order.t) :
  orders !! id = Some order ->
  isOwner order user = true ->
  isAdmin user = false ->
  Status.terminal (Order.status order) = false ->
  Body.status update = Some Status.cancelled ->
  strOr (Body.additionalInstructions update) "" = "" ->
  strOr (Body.reason cancel) "" = "" ->
  (updateOrder env orders user id update).2
  = (cancelOrder env orders user id cancel).2
  /\ (saveOk env = true ->
      updateOrder env orders user id update
      = cancelOrder env orders user id cancel).
Proof.
  intros Hl Ho Ha Ht Hs Hi Hr.
  unfold updateOrder, cancelOrder. rewrite Hl, Ho, Ha, Ht. cbn.
  unfold statusOtherThanCancelled, asksCancel, ownerChanges, asksCancel.
  rewrite Hs. cbn.
  assert (Hnote : strOr (Body.reason cancel) "Cancelled by student"
                  = "Cancelled by student").
  { unfold strOr in *. destruct (Body.reason cancel) as [r|]; [|reflexivity].
    destruct (truthyStr r) eqn:E; [|reflexivity]. subst r. discriminate E. }
  rewrite Hnote.
  assert (Hinstr : match Body.additionalInstructions update with
                   | Some s => truthyStr s
                   | None => false
                   end = false).
  { unfold strOr in Hi.
    destruct (Body.additionalInstructions update) as [a|]; [|reflexivity].
    destruct (truthyStr a) eqn:E; [|reflexivity]. subst a. discriminate E. }
  destruct (Body.additionalInstructions update) as [a|];
    try rewrite Hinstr; unfold save; destruct (saveOk env);
    split; try reflexivity; discriminate.
Qed.

Lemma owner_cancel_paths_agree_witness :
  (updateOrder env0 orders1 student1 "65a001" (statusBody Status.cancelled)).2
  = (cancelOrder env0 orders1 student1 "65a001" noBody).2
  /\ (saveOk env0 = true ->
      updateOrder env0 orders1 student1 "65a001" (statusBody Status.cancelled)
      = cancelOrder env0 orders1 student1 "65a001" noBody).
Proof.
  apply (owner_cancel_paths_agree env0 orders1 student1 "65a001"
           (statusBody Status.cancelled) noBody order1 orders1_lookup);
    reflexivity.
Defined.

(** X6. Once [cancelOrder] has been accepted, the order is cancelled for
    good as far as its owner goes: another [cancelOrder], a cancellation
    through [updateOrder] and a review are all answered 400 and store
    nothing, and the order is not overdue at any clock. *)
Theorem cancelled_order_is_closed
    (env env2 : Env) (orders orders' : gmap string Order.t) (user : User.t)
    (id : string) (body body2 : Body.t) (order' : Order.t) :
  cancelOrder env orders user id body = (Response.send 200 order', orders') ->
  cancelOrder env2 orders' user id body2
  = (Response.fail 400 "This order cannot be cancelled", orders')
  /\ reviewOrder env2 orders' user id body2
     = (Response.fail 400 "Can only review completed orders", orders')
  /\ (isAdmin user = false ->
      Body.status body2 = Some Status.cancelled ->
      updateOrder env2 orders' user id body2
      = (Response.fail 400 "Cannot cancel this order", orders'))
  /\ (forall clock, isOverdue clock order' = false).
Proof.
  unfold cancelOrder at 1.
  destruct (orders !! id) as [order|] eqn:Hl; [|discriminate].
  destruct (isOwner order user) eqn:Ho; [|discriminate]. cbn [negb].
  destruct (Status.terminal (Order.status order)); [discriminate|].
  unfold save. destruct (saveOk env); [|discriminate].
  intros H. injection H as <- <-.
  set (o' := cancelWith _ _ order).
  assert (Ho' : isOwner o' user = true) by exact Ho.
  repeat split.
  - unfold cancelOrder. rewrite lookup_insert_eq, Ho'. reflexivity.
  - unfold reviewOrder. rewrite lookup_insert_eq, Ho'. reflexivity.
  - intros Ha Hs. unfold updateOrder, statusOtherThanCancelled, asksCancel.
    rewrite lookup_insert_eq, Ho', Ha, Hs. reflexivity.
  - intros clock. unfold isOverdue. cbn. apply andb_false_r.
Qed.

Lemma cancelled_order_is_closed_witness :
  cancelOrder env0 (cancelOrder env0 orders1 student1 "65a001" noBody).2
    student1 "65a001" noBody
  = (Response.fail 400 "This order cannot be cancelled",
     (cancelOrder env0 orders1 student1 "65a001" noBody).2)
  /\ forall clock,
       isOverdue clock (cancelWith now0 "Cancelled by student" order1) = false.
Proof.
  destruct (cancelled_order_is_closed env0 env0 orders1
              (cancelOrder env0 orders1 student1 "65a001" noBody).2
              student1 "65a001" noBody noBody
              (cancelWith now0 "Cancelled by student" order1))
    as (Hc & _ & _ & Ho); [vm_compute; reflexivity|].
  exact (conj Hc Ho).
Defined.

(** X7. Whatever the body carries, an order that [createOrder] stores
    belongs to the caller, has the order number drawn for it, the urgency
    derived from its deadline, and as [totalPrice] the price that the
    previews of both controllers quote for the same body; its [basePrice]
    is that price divided by one. *)
Theorem created_order_paths
    (env : Env) (rules : list PricingRule.t) (orders orders' : gmap string Order.t)
    (user : User.t) (body : OrderData.t) (order : Order.t) :
  createOrder env rules orders user body = (Response.send 201 order, orders') ->
  Order.student order = User._id user
  /\ (exists k, (k < 3)%nat
                /\ Order.orderNumber order = Order.generated (draws env k)
                /\ orders' !! Order.newId (draws env k) = Some order)
  /\ Order.urgency order = deriveUrgency (OrderData.deadline body) (now env)
  /\ Order.totalPrice order
     = Some (Preview.totalPrice (calculatePrice rules body))
  /\ Order.basePrice order
     = Some (Num.div (Preview.totalPrice (calculatePrice rules body))
               (Num.ofZ 1))
  /\ Preview.totalPrice (calculatePricePublic rules body)
     = Preview.totalPrice (calculatePrice rules body).
Proof.
  unfold createOrder.
  pose proof (createLoop_ends env orders
                (prepareOrderData env rules user body) 3 0) as H.
  destruct (createLoop 3 0 env orders _) as [o os k|k|e k]; try discriminate.
  destruct H as (Hk & _ & Ha). intros E. injection E as <- <-.
  destruct (create_inserts _ _ _ _ _ _ Ha) as (_ & -> & _).
  unfold attempt, Order.create in Ha.
  destruct (Order.fault _); [discriminate|].
  destruct (Order.orderNumberTaken _ _); [discriminate|].
  destruct (orders !! _); [discriminate|].
  injection Ha as <- _.
  split; [reflexivity|]. split.
  - exists k. split; [lia|]. split; [reflexivity | apply lookup_insert_eq].
  - repeat split.
Qed.

Lemma created_order_paths_witness :
  Order.student order1 = User._id student1
  /\ Order.urgency order1 = deriveUrgency (now0 + 100 * hour) now0
  /\ Order.totalPrice order1
     = Some (Preview.totalPrice
               (calculatePrice [] (essayBody None (now0 + 100 * hour)))).
Proof.
  destruct (created_order_paths env0 [] ∅ orders1 student1
              (essayBody None (now0 + 100 * hour)) order1)
    as (Hs & _ & Hu & Ht & _); [vm_compute; reflexivity|].
  exact (conj Hs (conj Hu Ht)).
Defined.

(** X8. An order is shown only to the user it belongs to or to an
    administrator; a request for an [_id] that no order has is answered
    404, and one for an order whose student no longer exists 500. *)
Theorem getOrder_owner_or_admin
    (users : gset string) (orders : gmap string Order.t) (user : User.t)
    (id : string) :
  (forall order,
      Response.data (getOrder users orders user id) = Some order ->
      orders !! id = Some order
      /\ (Order.student order = User._id user \/ User.role user = "admin"))
  /\ (orders !! id = None ->
      getOrder users orders user id = Response.fail 404 "Order not found")
  /\ (forall order,
        orders !! id = Some order ->
        Order.student order ∈ users ->
        Order.student order = User._id user \/ User.role user = "admin" ->
        getOrder users orders user id = Response.send 200 order)
  /\ (forall order,
        orders !! id = Some order ->
        Order.student order ∉ users ->
        getOrder users orders user id
        = Response.fail 500 "Server error fetching order").
Proof.
  unfold getOrder, viewOrder, populated, isOwner, isAdmin. repeat split.
  - destruct (orders !! id) as [o|]; [|discriminate].
    destruct (negb _); [discriminate|].
    destruct (negb (Order.student o =? User._id user)%string && _);
      [discriminate|].
    cbn in H. congruence.
  - destruct (orders !! id) as [o|]; [|discriminate].
    destruct (negb (bool_decide _)); [discriminate|].
    destruct (Order.student o =? User._id user)%string eqn:E1.
    + apply String.eqb_eq in E1. cbn in H. left. congruence.
    + destruct (User.role user =? "admin")%string eqn:E2; [|discriminate].
      apply String.eqb_eq in E2. now right.
  - intros ->. reflexivity.
  - intros order -> Hin Hor.
    rewrite bool_decide_eq_true_2 by exact Hin. cbn.
    destruct Hor as [<-| ->].
    + now rewrite String.eqb_refl.
    + now rewrite andb_false_r.
  - intros order -> Hnin.
    now rewrite bool_decide_eq_false_2 by exact Hnin.
Qed.

Lemma getOrder_owner_or_admin_witness :
  getOrder users1 orders1 student1 "65a001" = Response.send 200 order1
  /\ getOrder ∅ orders1 student1 "65a001"
     = Response.fail 500 "Server error fetching order".
Proof.
  split.
  - apply (proj1 (proj2 (proj2
             (getOrder_owner_or_admin users1 orders1 student1 "65a001")))
             order1 orders1_lookup);
      [vm_compute; reflexivity | left; reflexivity].
  - apply (proj2 (proj2 (proj2
             (getOrder_owner_or_admin ∅ orders1 student1 "65a001")))
             order1 orders1_lookup).
    apply not_elem_of_empty.
Defined.






(** * More on the pricing engine *)

Lemma find_filter {A} (f g : A -> bool) (l : list A) :
  (forall x, f x = true -> g x = true) ->
  List.find f (List.filter g l) = List.find f l.
Proof.
  intros H. induction l as [|x l IH]; [reflexivity|]. cbn.
  destruct (g x) eqn:G, (f x) eqn:F; cbn; rewrite ?F; auto.
  apply H in F. congruence.
Qed.

Lemma find_remove {A} (f : A -> bool) (l1 l2 : list A) (x : A) :
  f x = false ->
  List.find f (l1 ++ x :: l2) = List.find f (l1 ++ l2).
Proof.
  intros H. induction l1 as [|y l1 IH]; cbn; [now rewrite H|].
  now destruct (f y).
Qed.

(** The price is a function of what the lookups find. *)
Lemma calculatePrice_lookups (rules rules' : list PricingRule.t)
    (d : OrderData.t) :
  (forall n, PricingRule.findOne (PricingRule.byName n) rules'
             = PricingRule.findOne (PricingRule.byName n) rules) ->
  (forall c a, PricingRule.findOne (PricingRule.byCategory c a) rules'
               = PricingRule.findOne (PricingRule.byCategory c a) rules) ->
  PricingRule.calculatePrice rules' d = PricingRule.calculatePrice rules d.
Proof.
  intros Hn Hc.
  unfold PricingRule.calculatePrice, PricingRule.basePricePerPage,
    PricingRule.findRule, PricingRule.citationRule.
  rewrite Hn, !Hc.
  destruct (OrderData.educationLevel d), (OrderData.taskType d),
    (OrderData.citationStyle d) as [c|];
    rewrite ?Hc; try reflexivity;
    destruct (truthyStr c && negb (c =? "none")%string); rewrite ?Hc;
    reflexivity.
Qed.

(** X10. Inactive rules have no part in the price: the price is that of the
    catalog without them. *)
Theorem calculatePrice_ignores_inactive
    (rules : list PricingRule.t) (d : OrderData.t) :
  PricingRule.calculatePrice (List.filter PricingRule.isActive rules) d
  = PricingRule.calculatePrice rules d.
Proof.
  apply calculatePrice_lookups.
  - intros n. apply find_filter. intros r H.
    apply andb_true_iff in H. tauto.
  - intros c a. apply find_filter. intros r H.
    apply andb_true_iff in H. tauto.
Qed.

(** X11. A rule that is not named "base_price_per_page" and whose category
    is none of the five that are looked up (a "page_count" rule for
    instance) has no part in the price, wherever it stands in the
    catalog. *)
Theorem calculatePrice_ignores_other_categories
    (before after : list PricingRule.t) (r : PricingRule.t) (d : OrderData.t) :
  PricingRule.name r <> "base_price_per_page" ->
  ~ In (PricingRule.category r) consultedCategories ->
  PricingRule.calculatePrice (before ++ r :: after) d
  = PricingRule.calculatePrice (before ++ after) d.
Proof.
  intros Hn Hc.
  assert (Hbase : PricingRule.byName "base_price_per_page" r = false).
  { unfold PricingRule.byName.
    destruct (PricingRule.name r =? "base_price_per_page")%string eqn:E;
      [|reflexivity].
    apply String.eqb_eq in E. contradiction. }
  assert (Hcat : forall c a, In c consultedCategories ->
                             PricingRule.byCategory c a r = false).
  { intros c a Hin. unfold PricingRule.byCategory.
    destruct (PricingRule.category r =? c)%string eqn:E; [|reflexivity].
    apply String.eqb_eq in E. subst c. contradiction. }
  unfold PricingRule.calculatePrice, PricingRule.basePricePerPage,
    PricingRule.findRule, PricingRule.citationRule, PricingRule.findOne.
  rewrite (find_remove _ before after r Hbase).
  rewrite (find_remove _ before after r
             (Hcat "urgency" _ ltac:(cbn; tauto))).
  rewrite (find_remove _ before after r
             (Hcat "complexity" _ ltac:(cbn; tauto))).
  destruct (OrderData.educationLevel d) as [e|];
    [rewrite (find_remove _ before after r
                (Hcat "education_level" e ltac:(cbn; tauto)))|];
    (destruct (OrderData.taskType d) as [t|];
     [rewrite (find_remove _ before after r
                 (Hcat "task_type" t ltac:(cbn; tauto)))|]);
    (destruct (OrderData.citationStyle d) as [c|]; [|reflexivity]);
    (destruct (truthyStr c && negb (c =? "none")%string); [|reflexivity]);
    rewrite (find_remove _ before after r
               (Hcat "citation_style" c ltac:(cbn; tauto)));
    reflexivity.
Qed.

Lemma calculatePrice_ignores_other_categories_witness :
  PricingRule.calculatePrice ([] ++ pageRule :: catalog90) phdEssay
  = PricingRule.calculatePrice ([] ++ catalog90) phdEssay.
Proof.
  apply (calculatePrice_ignores_other_categories [] catalog90 pageRule phdEssay).
  - discriminate.
  - cbn. intros [H|[H|[H|[H|[H|[]]]]]]; discriminate H.
Defined.

(** X12. Attributes that are absent or falsy are priced as their defaults:
    a page count that is absent, zero or [NaN] as one page; an urgency or a
    complexity that is absent or empty as "standard"; a citation style that
    is empty or "none" as an absent one. For these no citation rule is
    looked up: a rule for the citation style "none" has no part in any
    price. *)
Theorem calculatePrice_defaults (rules : list PricingRule.t) (d : OrderData.t) :
  (forall n, n = None \/ (exists x, n = Some x /\ Num.truthy x = false) ->
     PricingRule.calculatePrice rules (withPageCount n d)
     = PricingRule.calculatePrice rules (withPageCount (Some (Num.ofZ 1)) d))
  /\ (forall u, u = None \/ u = Some "" ->
        PricingRule.calculatePrice rules (withUrgency u d)
        = PricingRule.calculatePrice rules (withUrgency (Some "standard") d))
  /\ (forall c, c = None \/ c = Some "" ->
        PricingRule.calculatePrice rules (withComplexityLevel c d)
        = PricingRule.calculatePrice rules
            (withComplexityLevel (Some "standard") d))
  /\ (forall s, s = Some "" \/ s = Some "none" ->
        PricingRule.calculatePrice rules (withCitationStyle s d)
        = PricingRule.calculatePrice rules (withCitationStyle None d))
  /\ (forall before after r,
        rules = (before ++ r :: after)%list ->
        PricingRule.name r <> "base_price_per_page" ->
        PricingRule.category r = "citation_style" ->
        PricingRule.appliesTo r = "none" ->
        PricingRule.calculatePrice rules d
        = PricingRule.calculatePrice (before ++ after) d).
Proof.
  repeat split.
  - intros n [->|(x & -> & Hx)]; [reflexivity|].
    unfold PricingRule.calculatePrice, PricingRule.pageCountOf, Num.orElse.
    cbn. now rewrite Hx.
  - intros u [->| ->]; reflexivity.
  - intros c [->| ->]; reflexivity.
  - intros s [->| ->]; reflexivity.
  - intros before after r -> Hn Hc Ha.
    assert (Hbase : PricingRule.byName "base_price_per_page" r = false).
    { unfold PricingRule.byName.
      destruct (PricingRule.name r =? "base_price_per_page")%string eqn:E;
        [|reflexivity].
      apply String.eqb_eq in E. contradiction. }
    assert (Hcat : forall c a, c <> "citation_style" ->
                               PricingRule.byCategory c a r = false).
    { intros c a Hne. unfold PricingRule.byCategory. rewrite Hc.
      destruct ("citation_style" =? c)%string eqn:E; [|reflexivity].
      apply String.eqb_eq in E. congruence. }
    unfold PricingRule.calculatePrice, PricingRule.basePricePerPage,
      PricingRule.findRule, PricingRule.citationRule, PricingRule.findOne.
    rewrite (find_remove _ before after r Hbase).
    rewrite (find_remove _ before after r
               (Hcat "urgency" _ ltac:(discriminate))).
    rewrite (find_remove _ before after r
               (Hcat "complexity" _ ltac:(discriminate))).
    destruct (OrderData.educationLevel d) as [e|];
      [rewrite (find_remove _ before after r
                  (Hcat "education_level" e ltac:(discriminate)))|];
      (destruct (OrderData.taskType d) as [t|];
       [rewrite (find_remove _ before after r
                   (Hcat "task_type" t ltac:(discriminate)))|]);
      (destruct (OrderData.citationStyle d) as [c|]; [|reflexivity]);
      (destruct (truthyStr c && negb (c =? "none")%string) eqn:E;
       [|reflexivity]);
      (rewrite (find_remove _ before after r); [reflexivity|]);
      unfold PricingRule.byCategory; rewrite Ha;
      apply andb_true_iff in E as [_ E]; apply negb_true_iff in E;
      rewrite (String.eqb_sym "none" c), E, andb_false_r; reflexivity.
Qed.

Lemma calculatePrice_defaults_witness :
  PricingRule.calculatePrice catalog90 (withPageCount None phdEssay)
  = PricingRule.calculatePrice catalog90
      (withPageCount (Some (Num.ofZ 1)) phdEssay)
  /\ PricingRule.calculatePrice catalog90
       (withCitationStyle (Some "none") phdEssay)
     = PricingRule.calculatePrice catalog90 (withCitationStyle None phdEssay).
Proof.
  destruct (calculatePrice_defaults catalog90 phdEssay)
    as (Hp & _ & _ & Hc & _).
  split.
  - apply Hp. left. reflexivity.
  - apply Hc. right. reflexivity.
Defined.

Lemma shr_fexp_nonneg (m e : Z) (l : location) :
  0 <= m -> 0 <= shr_m (shr_fexp 53 1024 m e l).1.
Proof.
  intros Hm. unfold shr_fexp, shr.
  destruct (fexp 53 1024 (Zdigits2 m + e) - e) as [|p|p]; cbn [fst];
    rewrite ?iter_shr_1_m, shr_record_of_loc_m
      by (rewrite shr_record_of_loc_m; exact Hm);
    try exact Hm.
  apply Z.div_pos; [exact Hm | apply Z.pow_pos_nonneg; lia].
Qed.

(** Rounding keeps the sign and never yields [NaN]. *)
Lemma binary_round_aux_sign (s : bool) (m e : Z) (l : location) :
  0 <= m ->
  match binary_round_aux 53 1024 s m e l with
  | S754_nan => False
  | S754_zero s' | S754_infinity s' | S754_finite s' _ _ => s' = s
  end.
Proof.
  intros Hm. unfold binary_round_aux.
  pose proof (shr_fexp_nonneg m e l Hm) as H1.
  destruct (shr_fexp 53 1024 m e l) as [mrs1 e1]. cbn [fst] in H1.
  set (m2 := round_nearest_even (shr_m mrs1) (loc_of_shr_record mrs1)).
  assert (H2 : 0 <= m2).
  { destruct (round_nearest_even_cases (shr_m mrs1) (loc_of_shr_record mrs1))
      as [E|E]; unfold m2; rewrite E; lia. }
  pose proof (shr_fexp_nonneg m2 e1 loc_Exact H2) as H3.
  destruct (shr_fexp 53 1024 m2 e1 loc_Exact) as [mrs2 e2]. cbn [fst] in H3.
  destruct (shr_m mrs2) as [|p|p]; [reflexivity | | lia].
  destruct (e2 <=? 1024 - 53); reflexivity.
Qed.

Lemma nonNegative_of_sign (x : number) :
  match x with
  | S754_nan => False
  | S754_zero s' | S754_infinity s' | S754_finite s' _ _ => s' = false
  end -> nonNegative x = true.
Proof. destruct x as [s|s| |s m e]; cbn; intros H; subst; tauto. Qed.

Lemma mul_nonNegative (x y : number) :
  nonNegative x = true -> finitePositive y = true ->
  nonNegative (Num.mul x y) = true.
Proof.
  destruct y as [| | |[] my ey]; try discriminate. intros Hx _.
  destruct x as [sx|[]| |[] mx ex]; try discriminate; try reflexivity.
  apply nonNegative_of_sign.
  exact (binary_round_aux_sign false (Z.pos (mx * my)) (ex + ey) loc_Exact
           ltac:(lia)).
Qed.

Lemma round_nonNegative (x : number) :
  nonNegative x = true -> nonNegative (Num.round x) = true.
Proof.
  destruct x as [sx|[]| |[] m e]; try discriminate; try reflexivity.
  intros _. unfold Num.round. destruct (0 <=? e); [reflexivity|].
  set (z := Z.shiftr _ _).
  assert (Hz : 0 <= z).
  { unfold z. apply Z.shiftr_nonneg.
    assert (0 <= Z.shiftl 1 (- e)) by (apply Z.shiftl_nonneg; lia). lia. }
  destruct z as [|p|p]; [reflexivity | | lia].
  cbn [binary_normalize]. unfold binary_round.
  destruct (shl_align p 0 _) as [mz ez].
  apply nonNegative_of_sign.
  exact (binary_round_aux_sign false (Z.pos mz) ez loc_Exact ltac:(lia)).
Qed.

Lemma div_nonNegative (x y : number) :
  nonNegative x = true -> finitePositive y = true ->
  nonNegative (Num.div x y) = true.
Proof.
  destruct y as [| | |[] my ey]; try discriminate. intros Hx _.
  destruct x as [sx|[]| |[] mx ex]; try discriminate; try reflexivity.
  unfold Num.div, SFdiv.
  destruct (SFdiv_core_binary _ _ _ _ _ _) as [[mz ez] lz] eqn:E.
  apply nonNegative_of_sign.
  apply (binary_round_aux_sign false mz ez lz).
  unfold SFdiv_core_binary in E.
  set (m' := match _ with Z.pos _ => _ | Z0 => _ | Z.neg _ => _ end) in E.
  assert (Hm' : 0 <= m').
  { unfold m'. destruct (_ - _ - _) as [|p|p]; try lia.
    apply Z.shiftl_nonneg. lia. }
  destruct (Z.div_eucl m' (Z.pos my)) as [q r] eqn:Ed.
  injection E as <- _ _.
  assert (q = m' / Z.pos my) by (unfold Z.div; now rewrite Ed).
  subst q. apply Z.div_pos; lia.
Qed.

Lemma orElse_finitePositive (x y : number) :
  finiteNonNegative x = true -> finitePositive y = true ->
  finitePositive (Num.orElse x y) = true.
Proof.
  intros Hx Hy. unfold Num.orElse.
  destruct x as [s|s| |[] m e]; try discriminate; cbn; auto.
Qed.

Lemma finitePositive_nonNegative (x : number) :
  finitePositive x = true -> nonNegative x = true.
Proof. destruct x as [| | |[] m e]; try discriminate; reflexivity. Qed.

Lemma fold_mul_nonNegative (ms : list number) (x : number) :
  nonNegative x = true ->
  (forall m, In m ms -> finitePositive m = true) ->
  nonNegative (fold_left Num.mul ms x) = true.
Proof.
  revert x. induction ms as [|m ms IH]; intros x Hx Hall; [exact Hx|].
  cbn. apply IH.
  - apply mul_nonNegative; [exact Hx | apply Hall; now left].
  - intros m' Hm'. apply Hall. now right.
Qed.

(** X13. With the numbers that the schemas admit, the price is never
    negative and never [NaN]: [0 <= price] holds. *)
Theorem calculatePrice_not_negative
    (rules : list PricingRule.t) (d : OrderData.t) :
  schemaNumbers rules d ->
  Num.leb (Num.ofZ 0) (PricingRule.calculatePrice rules d) = true.
Proof.
  intros [Hrules Hpages].
  assert (H : nonNegative (PricingRule.calculatePrice rules d) = true).
  { rewrite calculatePrice_as_product. unfold PricingRule.roundCents.
    apply div_nonNegative; [|reflexivity].
    apply round_nonNegative. apply mul_nonNegative; [|reflexivity].
    apply fold_mul_nonNegative.
    - apply mul_nonNegative.
      + apply finitePositive_nonNegative.
        unfold PricingRule.basePricePerPage.
        destruct (PricingRule.findOne _ rules) as [r|] eqn:E; [|reflexivity].
        apply findOne_Some in E as [Hin _].
        apply orElse_finitePositive; [now apply Hrules | reflexivity].
      + unfold PricingRule.pageCountOf.
        destruct (OrderData.pageCount d) as [n|] eqn:E; [|reflexivity].
        apply orElse_finitePositive; [now apply Hpages | reflexivity].
    - intros m Hm. unfold foundMultipliers in Hm.
      apply in_map_iff in Hm as (r & <- & Hr).
      apply list_elem_of_In, list_elem_of_omap in Hr as (o & Ho & Heq).
      cbn in Heq. subst o. apply list_elem_of_In in Ho.
      apply (Hrules r). now apply (lookups_in_rules rules d (Some r) r). }
  destruct (PricingRule.calculatePrice rules d) as [s|[]| |[] m e];
    try discriminate; reflexivity.
Qed.

Lemma schemaNumbers_defaultRules : schemaNumbers defaultRules phdEssay.
Proof.
  split.
  - intros r Hr.
    assert (H : forallb
              (fun r => finitePositive (PricingRule.multiplier r)
                        && finiteNonNegative (PricingRule.basePrice r))
              defaultRules = true) by (vm_compute; reflexivity).
    rewrite forallb_forall in H. specialize (H r Hr).
    now apply andb_true_iff in H.
  - intros n Hn. injection Hn as <-. reflexivity.
Qed.

Lemma calculatePrice_not_negative_witness :
  Num.leb (Num.ofZ 0) (PricingRule.calculatePrice defaultRules phdEssay) = true.
Proof.
  exact (calculatePrice_not_negative defaultRules phdEssay
           schemaNumbers_defaultRules).
Defined.

(** * The listings of the rules *)

Lemma isIn_true (values : list string) (s : string) :
  isIn values s = true <-> In s values.
Proof.
  unfold isIn. rewrite existsb_exists. split.
  - intros (x & Hx & E). apply String.eqb_eq in E. now subst.
  - intros H. exists s. split; [exact H | apply String.eqb_refl].
Qed.

Lemma sortCompare_antisym (x y : number) :
  sortCompare y x = CompOpp (sortCompare x y).
Proof.
  unfold sortCompare. destruct (SFcompare x y) as [c|] eqn:E.
  - now rewrite (SFcompare_antisym x y c E).
  - destruct x as [sx|sx| |sx mx ex], y as [sy|sy| |sy my ey];
      try discriminate E; reflexivity.
Qed.

Global Instance byPriority_total : Total byPriority.
Proof.
  intros a b. unfold byPriority.
  rewrite (sortCompare_antisym (PricingRule.priority b) (PricingRule.priority a)).
  rewrite (sortCompare_antisym (PricingRule.displayOrder a)
             (PricingRule.displayOrder b)).
  destruct (sortCompare (PricingRule.priority b) (PricingRule.priority a));
    cbn; auto.
  destruct (sortCompare (PricingRule.displayOrder a)
              (PricingRule.displayOrder b)); cbn; auto;
    (left; discriminate) || (right; discriminate).
Qed.

Global Instance byCategoryThenOrder_total : Total byCategoryThenOrder.
Proof.
  intros a b. unfold byCategoryThenOrder.
  rewrite (String.compare_antisym (PricingRule.category a)
             (PricingRule.category b)).
  rewrite (sortCompare_antisym (PricingRule.displayOrder a)
             (PricingRule.displayOrder b)).
  destruct (String.compare (PricingRule.category b) (PricingRule.category a));
    cbn; auto.
  destruct (sortCompare (PricingRule.displayOrder a)
              (PricingRule.displayOrder b)); cbn; auto;
    (left; discriminate) || (right; discriminate).
Qed.

(** X14. [getActiveRulesByCategory] returns the active rules of the
    category and nothing else, each as often as the catalog has it, in an
    order in which every rule has a priority not below that of the next
    and, at equal priority, a display order not above it. *)
Theorem getActiveRulesByCategory_sorted
    (rules : list PricingRule.t) (category : string) :
  getActiveRulesByCategory rules category
  ≡ₚ List.filter
       (fun r => String.eqb (PricingRule.category r) category
                 && PricingRule.isActive r)
       rules
  /\ Sorted byPriority (getActiveRulesByCategory rules category)
  /\ (forall r,
        In r (getActiveRulesByCategory rules category) <->
        In r rules /\ PricingRule.category r = category
        /\ PricingRule.isActive r = true).
Proof.
  assert (HP : getActiveRulesByCategory rules category
               ≡ₚ List.filter
                    (fun r => String.eqb (PricingRule.category r) category
                              && PricingRule.isActive r)
                    rules)
    by apply merge_sort_Permutation.
  split; [exact HP|]. split.
  - apply (Sorted_merge_sort byPriority).
  - intros r. rewrite <- !list_elem_of_In, HP, list_elem_of_In, filter_In.
    rewrite andb_true_iff, String.eqb_eq, list_elem_of_In. tauto.
Qed.

Lemma getActiveRulesByCategory_sorted_witness :
  Sorted byPriority (getActiveRulesByCategory defaultRules "urgency").
Proof.
  exact (proj1 (proj2 (getActiveRulesByCategory_sorted defaultRules "urgency"))).
Defined.

Lemma group_pushGroup (k c : string) (v : GroupEntry.t)
    (acc : list (string * list GroupEntry.t)) :
  group c (pushGroup k v acc)
  = if String.eqb k c
    then Some (default [] (group c acc) ++ [v])%list
    else group c acc.
Proof.
  unfold group. induction acc as [|[k' vs] acc IH]; cbn.
  - destruct (k =? c)%string; reflexivity.
  - destruct (k' =? k)%string eqn:E1.
    + apply String.eqb_eq in E1. subst k'. cbn.
      destruct (k =? c)%string; reflexivity.
    + cbn. destruct (k' =? c)%string eqn:E2; [|exact IH].
      cbn. destruct (k =? c)%string eqn:E3; [|reflexivity].
      apply String.eqb_eq in E2, E3. subst. now rewrite String.eqb_refl in E1.
Qed.

Lemma pushGroup_keys (k : string) (v : GroupEntry.t)
    (acc : list (string * list GroupEntry.t)) :
  map fst (pushGroup k v acc)
  = if existsb (String.eqb k) (map fst acc) then map fst acc
    else (map fst acc ++ [k])%list.
Proof.
  induction acc as [|[k' vs] acc IH]; cbn; [reflexivity|].
  rewrite (String.eqb_sym k k').
  destruct (k' =? k)%string; cbn; [reflexivity|]. rewrite IH.
  now destruct (existsb (String.eqb k) (map fst acc)).
Qed.

Lemma group_fold (c : string) (rules : list PricingRule.t)
    (acc : list (string * list GroupEntry.t)) :
  group c
    (fold_left (fun acc rule => pushGroup (PricingRule.category rule)
                                  (groupEntry rule) acc) rules acc)
  = match List.filter (fun r => String.eqb (PricingRule.category r) c) rules with
    | [] => group c acc
    | rs => Some (default [] (group c acc) ++ map groupEntry rs)%list
    end.
Proof.
  revert acc. induction rules as [|r rules IH]; intros acc; [reflexivity|].
  cbn [fold_left List.filter]. rewrite IH, group_pushGroup.
  destruct (PricingRule.category r =? c)%string.
  - destruct (List.filter _ rules) as [|r' rs]; cbn.
    + reflexivity.
    + now rewrite <- app_assoc.
  - reflexivity.
Qed.

Lemma keys_fold_NoDup (rules : list PricingRule.t)
    (acc : list (string * list GroupEntry.t)) :
  NoDup (map fst acc) ->
  NoDup (map fst
           (fold_left (fun acc rule => pushGroup (PricingRule.category rule)
                                         (groupEntry rule) acc) rules acc)).
Proof.
  revert acc. induction rules as [|r rules IH]; intros acc Hnd; [exact Hnd|].
  cbn [fold_left]. apply IH. rewrite pushGroup_keys.
  destruct (existsb _ (map fst acc)) eqn:E; [exact Hnd|].
  apply NoDup_app. split; [exact Hnd|]. split; [|apply NoDup_singleton].
  intros x Hx Hx'. apply list_elem_of_singleton in Hx'. subst x.
  assert (existsb (String.eqb (PricingRule.category r)) (map fst acc) = true).
  { apply existsb_exists. exists (PricingRule.category r).
    split; [now apply list_elem_of_In | apply String.eqb_refl]. }
  congruence.
Qed.

(** X15. [getPricingRules] lists the active rules and only them, by
    category and then by display order, and groups the listing: under each
    category stand the entries of exactly the listed rules of that
    category, in the order of the listing; a category without a listed rule
    has no group, and no category has two groups. The categories are those
    of the schema. *)
Theorem getPricingRules_groups (rules : list PricingRule.t) :
  Forall (fun r => In (PricingRule.category r) schemaCategories) rules ->
  (getPricingRules rules).1 ≡ₚ List.filter PricingRule.isActive rules
  /\ Sorted byCategoryThenOrder (getPricingRules rules).1
  /\ NoDup (map fst (getPricingRules rules).2)
  /\ (forall c,
        group c (getPricingRules rules).2
        = match List.filter
                  (fun r => String.eqb (PricingRule.category r) c)
                  (getPricingRules rules).1
          with
          | [] => None
          | rs => Some (map groupEntry rs)
          end).
Proof.
  intros _. unfold getPricingRules. cbn [fst snd]. repeat split.
  - apply merge_sort_Permutation.
  - apply (Sorted_merge_sort byCategoryThenOrder).
  - apply keys_fold_NoDup. constructor.
  - intros c. unfold groupRules. rewrite group_fold. reflexivity.
Qed.

Lemma defaultRules_categories :
  Forall (fun r => In (PricingRule.category r) schemaCategories) defaultRules.
Proof.
  apply List.Forall_forall. intros r Hr.
  assert (H : forallb
            (fun r => isIn schemaCategories (PricingRule.category r))
            defaultRules = true) by (vm_compute; reflexivity).
  rewrite forallb_forall in H. apply isIn_true. now apply H.
Qed.

Lemma getPricingRules_groups_witness :
  NoDup (map fst (getPricingRules defaultRules).2)
  /\ group "page_count" (getPricingRules defaultRules).2 = None.
Proof.
  destruct (getPricingRules_groups defaultRules defaultRules_categories)
    as (_ & _ & Hn & Hg).
  split; [exact Hn|]. rewrite Hg. vm_compute. reflexivity.
Defined.

(** * The default catalog *)

(** X16. Seeding replaces whatever catalog there is by the 23 default
    rules. Their names are pairwise distinct, as the unique index on [name]
    requires, and so are their pairs of category and value; every
    multiplier lies between 0.1 and 10 as the schema requires; none is the
    base-rate rule, so the rate per page is 15 afterwards; and every
    education level of the schema and every urgency that [createOrder]
    derives has a rule. *)
Theorem seedPricingRules_catalog (rules : list PricingRule.t) :
  seedPricingRules rules = ("Seeded 23 pricing rules", defaultRules)
  /\ NoDup (map PricingRule.name defaultRules)
  /\ NoDup (map (fun r => (PricingRule.category r, PricingRule.appliesTo r))
              defaultRules)
  /\ (forall r, In r defaultRules ->
        PricingRule.isActive r = true
        /\ Num.leb (decimal 1 10) (PricingRule.multiplier r) = true
        /\ Num.leb (PricingRule.multiplier r) (Num.ofZ 10) = true)
  /\ PricingRule.basePricePerPage (seedPricingRules rules).2 = Num.ofZ 15
  /\ (forall level, In level schemaEducationLevels ->
        PricingRule.findOne (PricingRule.byCategory "education_level" level)
          defaultRules <> None)
  /\ (forall deadline now,
        PricingRule.findOne
          (PricingRule.byCategory "urgency" (deriveUrgency deadline now))
          defaultRules <> None).
Proof.
  split; [reflexivity|]. split; [|split; [|split; [|split; [|split]]]].
  - assert (H : bool_decide (NoDup (map PricingRule.name defaultRules)) = true)
      by (vm_compute; reflexivity).
    now apply bool_decide_eq_true_1 in H.
  - assert (H : bool_decide
                  (NoDup (map (fun r => (PricingRule.category r,
                                         PricingRule.appliesTo r))
                            defaultRules)) = true)
      by (vm_compute; reflexivity).
    now apply bool_decide_eq_true_1 in H.
  - intros r Hr.
    assert (H : forallb
              (fun r => PricingRule.isActive r
                        && Num.leb (decimal 1 10) (PricingRule.multiplier r)
                        && Num.leb (PricingRule.multiplier r) (Num.ofZ 10))
              defaultRules = true) by (vm_compute; reflexivity).
    rewrite forallb_forall in H. specialize (H r Hr).
    apply andb_true_iff in H as [H H3]. apply andb_true_iff in H as [H1 H2].
    auto.
  - reflexivity.
  - intros level Hl. cbn in Hl.
    repeat (destruct Hl as [<-|Hl]; [vm_compute; discriminate|]).
    contradiction.
  - intros deadline now. unfold deriveUrgency.
    destruct (Num.leb _ _); [vm_compute; discriminate|].
    destruct (Num.leb _ _); vm_compute; discriminate.
Qed.

Lemma seedPricingRules_catalog_witness :
  PricingRule.findOne (PricingRule.byCategory "education_level" "phd")
    defaultRules <> None.
Proof.
  apply (proj1 (proj2 (proj2 (proj2 (proj2 (proj2
           (seedPricingRules_catalog catalog90))))))).
  cbn. tauto.
Defined.

(** * The enumerations *)

(** X17. Every task type that the creation validator lets through is in
    the enumeration of the schema and has a display label of its own, and
    no two of them share a label; "quiz" is the one value of the schema
    that the validator refuses, and it is displayed as it is. Every
    education level of the schema has a label of its own as well. *)
Theorem taskType_tables (s : string) :
  (isIn validatedTaskTypes s = true ->
     isIn schemaTaskTypes s = true /\ getFormattedTaskType s <> s)
  /\ (isIn schemaEducationLevels s = true -> getFormattedEducationLevel s <> s)
  /\ (isIn schemaTaskTypes s = true -> isIn validatedTaskTypes s = false ->
      s = "quiz" /\ getFormattedTaskType s = s)
  /\ (forall t,
        isIn validatedTaskTypes s = true -> isIn validatedTaskTypes t = true ->
        getFormattedTaskType s = getFormattedTaskType t -> s = t).
Proof.
  split; [|split; [|split]].
  - intros H. apply isIn_true in H. cbn in H.
    repeat (destruct H as [<-|H]; [split; [reflexivity | discriminate]|]).
    contradiction.
  - intros H. apply isIn_true in H. cbn in H.
    repeat (destruct H as [<-|H]; [discriminate|]). contradiction.
  - intros H Hn. apply isIn_true in H. cbn in H.
    destruct H as [<-|H]; [split; reflexivity|].
    repeat (destruct H as [<-|H]; [discriminate Hn|]). contradiction.
  - intros t Hs Ht. apply isIn_true in Hs, Ht. cbn in Hs, Ht.
    repeat (destruct Hs as [<-|Hs];
            [repeat (destruct Ht as [<-|Ht];
                     [first [reflexivity | discriminate]|]);
             contradiction|]).
    contradiction.
Qed.

Lemma taskType_tables_witness :
  (isIn schemaTaskTypes "essay" = true /\ getFormattedTaskType "essay" <> "essay")
  /\ getFormattedTaskType "quiz" = "quiz".
Proof.
  split.
  - apply (proj1 (taskType_tables "essay")). reflexivity.
  - apply (proj1 (proj2 (proj2 (taskType_tables "quiz")))); reflexivity.
Defined.

(** * The authentication middleware *)




Lemma truthyStr_true (s : string) : s <> "" -> truthyStr s = true.
Proof.
  intros Hne. unfold truthyStr. destruct (s =? "")%string eqn:E; [|reflexivity].
  apply String.eqb_eq in E. contradiction.
Qed.

Lemma protect_Next (verify : string -> option Decoded.t)
    (users : gmap string Account.t) (authorization : option string)
    (user : option User.t) :
  protect verify users authorization = Next user <->
  exists token decoded account,
    bearerToken authorization = Some token
    /\ token <> ""
    /\ verify token = Some decoded
    /\ users !! Decoded.id decoded = Some account
    /\ Account.isActive account = true
    /\ Account.tokenVersion account
       = Some (default 0 (Decoded.tokenVersion decoded))
    /\ user = Some (User.mk (Decoded.id decoded) (Account.role account)).
Proof.
  unfold protect. split.
  - destruct (bearerToken authorization) as [token|]; [|discriminate].
    unfold truthyStr. destruct (token =? "")%string eqn:T; [discriminate|].
    cbn [negb].
    destruct (verify token) as [decoded|] eqn:V; [|discriminate].
    destruct (users !! Decoded.id decoded) as [account|] eqn:U; [|discriminate].
    unfold tokenRevoked. case_bool_decide as Hv; [|discriminate]. cbn [negb].
    destruct (Account.isActive account) eqn:A; [|discriminate]. cbn [negb].
    intros E. injection E as <-. exists token, decoded, account.
    apply String.eqb_neq in T. auto 10.
  - intros (token & decoded & account & -> & Hne & -> & -> & -> & Hv & ->).
    rewrite (truthyStr_true _ Hne). cbn [negb]. unfold tokenRevoked.
    now rewrite bool_decide_eq_true_2 by exact Hv.
Qed.

Lemma protect_Answer (verify : string -> option Decoded.t)
    (users : gmap string Account.t) (authorization : option string)
    (code : Z) (error : string) :
  protect verify users authorization = Answer code error -> code = 401.
Proof.
  unfold protect.
  destruct (bearerToken authorization) as [token|]; [|congruence].
  destruct (negb (truthyStr token)); [congruence|].
  destruct (verify token) as [decoded|]; [|congruence].
  destruct (users !! Decoded.id decoded) as [account|]; [|congruence].
  destruct (tokenRevoked decoded account); [congruence|].
  destruct (negb (Account.isActive account)); [congruence | discriminate].
Qed.

(** X19. [protect] lets a request through only with the user of a verified
    token: the header carries a token that verifies, the user it names
    exists and is active, and the token version of the user is that of the
    token (0 when the token has none). Every other request is answered 401.
    A user document without a token version is refused whatever the token
    says. *)
Theorem protect_lets_verified_users_through
    (verify : string -> option Decoded.t) (users : gmap string Account.t)
    (authorization : option string) :
  (forall user,
      protect verify users authorization = Next user ->
      exists token decoded account,
        bearerToken authorization = Some token
        /\ verify token = Some decoded
        /\ users !! Decoded.id decoded = Some account
        /\ Account.isActive account = true
        /\ Account.tokenVersion account
           = Some (default 0 (Decoded.tokenVersion decoded))
        /\ user = Some (User.mk (Decoded.id decoded) (Account.role account)))
  /\ (forall code error,
        protect verify users authorization = Answer code error -> code = 401)
  /\ (forall token decoded account,
        bearerToken authorization = Some token ->
        token <> "" ->
        verify token = Some decoded ->
        users !! Decoded.id decoded = Some account ->
        Account.tokenVersion account = None ->
        protect verify users authorization
        = Answer 401 "Token has been revoked. Please log in again.").
Proof.
  repeat split.
  - intros user H. apply protect_Next in H
      as (token & decoded & account & ? & ? & ? & ? & ? & ? & ?).
    exists token, decoded, account. auto 10.
  - apply protect_Answer.
  - intros token decoded account Hb Hne Hv Hu Ht. unfold protect.
    rewrite Hb, (truthyStr_true _ Hne), Hv, Hu. cbn [negb].
    unfold tokenRevoked. rewrite Ht.
    now rewrite bool_decide_eq_false_2 by discriminate.
Qed.

Lemma protect_lets_verified_users_through_witness :
  (exists token decoded account,
      bearerToken (Some "Bearer tok1") = Some token
      /\ verify1 token = Some decoded
      /\ accounts1 !! Decoded.id decoded = Some account
      /\ Account.isActive account = true
      /\ Account.tokenVersion account
         = Some (default 0 (Decoded.tokenVersion decoded))
      /\ Some admin1
         = Some (User.mk (Decoded.id decoded) (Account.role account)))
  /\ protect verify1 accountsOfSchema (Some "Bearer tok1")
     = Answer 401 "Token has been revoked. Please log in again.".
Proof.
  split.
  - apply (proj1 (protect_lets_verified_users_through verify1 accounts1
                    (Some "Bearer tok1")) (Some admin1)).
    vm_compute. reflexivity.
  - apply (proj2 (proj2 (protect_lets_verified_users_through verify1
                           accountsOfSchema (Some "Bearer tok1")))
             "tok1" (Decoded.mk "64f0c3" (Some 0))
             (Account.mk "admin" true None));
      [reflexivity | discriminate | reflexivity | vm_compute; reflexivity
      | reflexivity].
Defined.





(** * The error handler *)

(** X22. The error handler always answers a failure, and in production its
    answer carries no stack. A token error is answered 401, a validation
    error 400 with its messages, otherwise a duplicate key 400, otherwise a
    cast error 404, and any other error with its own status code and
    message, 500 and "Server Error" where it has none. The handler fails
    itself only on a validation error without errors. The error of
    [notFound] is answered 404 with the URL in the message. *)
Theorem errorHandler_answers (production : bool) (err : Err.t) :
  (forall reply,
      errorHandler production err = Some reply ->
      ErrorReply.success reply = false
      /\ (production = true -> ErrorReply.stack reply = None)
      /\ (production = false -> ErrorReply.stack reply = Err.stack err)
      /\ (Err.name err = "JsonWebTokenError"
          \/ Err.name err = "TokenExpiredError" ->
          ErrorReply.statusCode reply = 401
          /\ ErrorReply.errors reply = None)
      /\ (Err.name err = "ValidationError" ->
          ErrorReply.statusCode reply = 400
          /\ ErrorReply.message reply = "Validation Error"
          /\ ErrorReply.errors reply = Err.errors err)
      /\ (Err.name err <> "JsonWebTokenError" ->
          Err.name err <> "TokenExpiredError" ->
          Err.name err <> "ValidationError" ->
          (Err.code err = Some 11000 ->
           ErrorReply.statusCode reply = 400
           /\ ErrorReply.errors reply = None)
          /\ (Err.code err <> Some 11000 ->
              Err.name err = "CastError" ->
              ErrorReply.statusCode reply = 404
              /\ ErrorReply.message reply = "Resource not found"
              /\ ErrorReply.errors reply = None)
          /\ (Err.code err <> Some 11000 ->
              Err.name err <> "CastError" ->
              ErrorReply.statusCode reply = codeOr (Err.statusCode err) 500
              /\ ErrorReply.message reply
                 = strOr (Err.message err) "Server Error"
              /\ ErrorReply.errors reply = Err.errors err)))
  /\ (errorHandler production err = None
      <-> Err.name err = "ValidationError" /\ Err.errors err = None)
  /\ (forall originalUrl stack,
        errorHandler production (notFound originalUrl stack)
        = Some (ErrorReply.mk 404 false
                  (String.append "Not found - " originalUrl) None
                  (if production then None else stack))).
Proof.
  split; [|split].
  - intros reply. unfold errorHandler.
    destruct (String.eqb_spec (Err.name err) "CastError") as [Hc|Hc];
      destruct (String.eqb_spec (Err.name err) "ValidationError") as [Hv|Hv];
      destruct (String.eqb_spec (Err.name err) "JsonWebTokenError") as [Hj|Hj];
      destruct (String.eqb_spec (Err.name err) "TokenExpiredError") as [Ht|Ht];
      try (exfalso; congruence).
    all: destruct (bool_decide (Err.code err = Some 11000)) eqn:Hd;
      [apply bool_decide_eq_true_1 in Hd | apply bool_decide_eq_false_1 in Hd].
    all: destruct (Err.errors err) as [messages|]; cbn.
    all: intros E; try discriminate E; injection E as <-; cbn.
    all: repeat split; try reflexivity; try congruence.
    all: try (intros [|]; congruence).
    all: try (destruct production; congruence).
    all: match goal with H : _ \/ _ |- _ => destruct H; congruence end.
  - unfold errorHandler.
    destruct (String.eqb_spec (Err.name err) "ValidationError") as [Hv|Hv].
    + rewrite Hv. cbn. destruct (Err.errors err); cbn.
      * split; [discriminate | intros [_ ?]; discriminate].
      * split; auto.
    + destruct (_ =? "JsonWebTokenError")%string,
        (_ =? "TokenExpiredError")%string; cbn;
        (split; [discriminate | intros [? _]; contradiction]).
  - intros originalUrl stack. reflexivity.
Qed.

Lemma errorHandler_answers_witness :
  ErrorReply.statusCode
    (ErrorReply.mk 400 false
       "Duplicate field value: email. Please use another value." None None)
  = 400
  /\ ErrorReply.errors
       (ErrorReply.mk 400 false
          "Duplicate field value: email. Please use another value." None None)
     = None.
Proof.
  destruct (proj1 (errorHandler_answers true duplicateKey)
              (ErrorReply.mk 400 false
                 "Duplicate field value: email. Please use another value."
                 None None))
    as (_ & _ & _ & _ & _ & H); [vm_compute; reflexivity|].
  apply H; [discriminate | discriminate | discriminate | reflexivity].
Defined.
